(** * Cart engine of maisha-boutique (backend/routes/cart.js)

    A shallow embedding of the cart routes and of the part of the Cart
    schema they rely on, and of the JWT middleware of the auth routes.
    The MongoDB collection is an insertion-ordered list of documents;
    every route handler is a function from the request body and the
    collection to the new collection and the HTTP response.

    Modelling conventions.
    - Prices and totals are JavaScript numbers: IEEE 754 binary64 values
      ([float]), with the rounding of every operation.  Quantities are the
      integers [parseInt] returns ([Z], exact below 2^53).
    - Request fields carry the type the schema gives them; a field that is
      absent from the request is [None] (a JSON null is not a request of
      this model).  In a stored document [None] is a field that is null
      or missing.
    - [parseInt] of an integer is that integer, of an absent field NaN,
      which the schema's Number cast refuses.
    - A user id is cast to an ObjectId wherever the schema meets it: in a
      query filter the failed cast throws at once, in a new document it is
      reported when the document is saved.  An ObjectId is the string of
      24 hexadecimal digits the request spells it with; one id is taken
      to be spelled one way throughout.
    - A thrown error (failed cast, rejected validation) is caught by the
      handler, which answers 500 without having written anything. *)

From Stdlib Require Import ZArith Lia QArith Floats.
From stdpp Require Import base decidable option list strings.

Local Open Scope Z_scope.

(** ** Schema (cartSchema) *)

Record CartItem := mkItem {
  name : string;
  price : float;
  image : option string;
  quantity : Z
}.

Inductive Status := active | ordered | abandoned.

Record Cart := mkCart {
  _id : nat;
  user : option string;
  sessionId : option string;
  items : list CartItem;
  totalPrice : float;
  status : Status
}.

#[global] Instance Status_eq_dec : EqDecision Status.
Proof. solve_decision. Defined.

(** Field assignments of the handlers. *)
Definition set_quantity (q : Z) (i : CartItem) : CartItem :=
  mkItem (name i) (price i) (image i) q.

(** [item.quantity += q] *)
Definition add_quantity (q : Z) (i : CartItem) : CartItem :=
  set_quantity (quantity i + q) i.

Definition set_items (l : list CartItem) (c : Cart) : Cart :=
  mkCart (_id c) (user c) (sessionId c) l (totalPrice c) (status c).

Definition set_status (s : Status) (c : Cart) : Cart :=
  mkCart (_id c) (user c) (sessionId c) (items c) (totalPrice c) s.

Definition set_owner (u s : option string) (c : Cart) : Cart :=
  mkCart (_id c) u s (items c) (totalPrice c) (status c).

(** An integer as the JavaScript number it is: the nearest binary64
    value (the integer itself below 2^53). *)
Definition Z2F (z : Z) : float := SF2Prim (binary_normalize prec emax z 0 false).

(** [items.reduce((acc, item) => acc + item.price * item.quantity, 0)],
    in binary64 arithmetic, from the left. *)
Definition cartTotal (l : list CartItem) : float :=
  foldl (λ acc item, PrimFloat.add acc (PrimFloat.mul (price item) (Z2F (quantity item))))
    0%float l.

(** [cartSchema.pre("save")]: the only assignment to [totalPrice]. *)
Definition preSave (c : Cart) : Cart :=
  mkCart (_id c) (user c) (sessionId c) (items c) (cartTotal (items c)) (status c).

(** Validators of the item sub-schema: [name] required (a non-empty
    string), [quantity] required with [min: 1]; [price] is required and a
    number by its type. *)
Definition validItem (i : CartItem) : bool :=
  negb (String.eqb (name i) "") && (1 <=? quantity i).

(** A string casts to an ObjectId when it is 24 hexadecimal digits. *)
Definition isHexDigit (a : Ascii.ascii) : bool :=
  let n := Ascii.nat_of_ascii a in
  ((48 <=? n) && (n <=? 57) || (65 <=? n) && (n <=? 70)
   || (97 <=? n) && (n <=? 102))%nat.

Definition isObjectId (s : string) : bool :=
  (String.length s =? 24)%nat && forallb isHexDigit (String.list_ascii_of_string s).

(** The [user] path of a document ([ObjectId], not required): absent, or a
    value that casts. *)
Definition userCasts (c : Cart) : bool :=
  match user c with
  | Some u => isObjectId u
  | None => true
  end.

(** Validation before a save: the cast of [user] and the validators of
    every line. *)
Definition validate (c : Cart) : bool :=
  userCasts c && forallb validItem (items c).

(** ** The collection *)

Record Store := mkStore {
  carts : list Cart;
  nextId : nat
}.

Definition emptyStore : Store := mkStore [] 0.

(** Filters [{ user, status: "active" }] and [{ sessionId, status: "active" }].
    A filter value that is undefined is sent as null and matches the
    documents whose field is null or missing. *)
Definition byUser (u : option string) (c : Cart) : Prop :=
  user c = u ∧ status c = active.

Definition bySession (s : option string) (c : Cart) : Prop :=
  sessionId c = s ∧ status c = active.

#[global] Instance byUser_dec u c : Decision (byUser u c).
Proof. unfold byUser. apply _. Defined.

#[global] Instance bySession_dec s c : Decision (bySession s c).
Proof. unfold bySession. apply _. Defined.

(** [Cart.findOne(filter)]: the first matching document. *)
Definition findOne (P : Cart → Prop) `{∀ c, Decision (P c)} (st : Store)
  : option Cart :=
  snd <$> list_find P (carts st).

(** The outcome of a query: a document, none, or a thrown CastError. *)
Inductive Lookup :=
  | Found (c : Cart)
  | NoCart
  | CastError.

Definition found (o : option Cart) : Lookup :=
  match o with
  | Some c => Found c
  | None => NoCart
  end.

(** [Cart.findOne({ user, status: "active" })] for a user the request
    gives as a non-empty string: the filter value is cast first. *)
Definition findByUser (u : string) (st : Store) : Lookup :=
  if isObjectId u then found (findOne (byUser (Some u)) st) else CastError.

(** [new Cart({ user, sessionId, items: [], status: "active" })];
    [totalPrice] takes its default 0. *)
Definition newCart (u s : option string) (st : Store) : Cart :=
  mkCart (nextId st) u s [] 0%float active.

(** Write of an already stored document: [updateOne({ _id }, doc)]. *)
Fixpoint updateOne (d : Cart) (l : list Cart) : list Cart :=
  match l with
  | [] => []
  | c :: l' => if decide (_id c = _id d) then d :: l' else c :: updateOne d l'
  end.

(** [Cart.deleteOne({ _id })] *)
Fixpoint deleteOne (i : nat) (l : list Cart) : list Cart :=
  match l with
  | [] => []
  | c :: l' => if decide (_id c = i) then l' else c :: deleteOne i l'
  end.

(** [doc.save()]: validation, then the pre-save hook, then the write (an
    insert for a document made by [new Cart], an update otherwise).
    [None] is the thrown validation error. *)
Definition save (isNew : bool) (c : Cart) (st : Store) : option (Cart * Store) :=
  if validate c then
    let d := preSave c in
    Some (d, if isNew
             then mkStore (carts st ++ [d]) (S (nextId st))
             else mkStore (updateOne d (carts st)) (nextId st))
  else None.

(** ** Requests and responses *)

Module Req.
Record t := mk {
  user : option string;
  sessionId : option string;
  name : option string;
  price : option float;
  image : option string;
  quantity : option Z
}.
End Req.

(** The value of a field when it is truthy: a non-empty string, a
    non-zero number. *)
Definition truthyStr (o : option string) : option string :=
  match o with
  | Some s => if String.eqb s "" then None else Some s
  | None => None
  end.

(** A number is falsy when it is 0, -0 or NaN. *)
Definition truthyNum (o : option float) : option float :=
  match o with
  | Some z => if PrimFloat.is_zero z || PrimFloat.is_nan z then None else Some z
  | None => None
  end.

Inductive Payload :=
  | CartDoc (c : Cart)
  | View (its : list CartItem) (total : float).

Record Response := mkRes {
  code : nat;
  success : bool;
  message : option string;
  data : option Payload
}.

Definition BadRequest : nat := 400%nat.
Definition NotFound : nat := 404%nat.
Definition ServerError : nat := 500%nat.

(** Error answers [{ success: false, message }]; the [error] text that the
    500 answers add is left out. *)
Definition failure (k : nat) (msg : string) : Response :=
  mkRes k false (Some msg) None.

Definition respond (k : nat) (msg : string) (c : Cart) : Response :=
  mkRes k true (Some msg) (Some (CartDoc c)).

(** [user ? Cart.findOne({ user, status: "active" })
          : Cart.findOne({ sessionId, status: "active" })] *)
Definition lookupCart (u s : option string) (st : Store) : Lookup :=
  match truthyStr u with
  | Some uid => findByUser uid st
  | None => found (findOne (bySession s) st)
  end.

(** ** Route handlers *)

(** Body of POST /cart/add after the cart is located or created. *)
Definition addLine (n : string) (p : float) (img : option string) (q : Z)
    (l : list CartItem) : list CartItem :=
  match list_find (λ item, name item = n) l with
  | Some (existingIndex, _) => alter (add_quantity q) existingIndex l
  | None => l ++ [mkItem n p img q]
  end.

(** POST /cart/add *)
Definition addItem (r : Req.t) (st : Store) : Store * Response :=
  match truthyStr (Req.name r), truthyNum (Req.price r) with
  | Some n, Some p =>
      let q := default 1 (Req.quantity r) in
      match lookupCart (Req.user r) (Req.sessionId r) st with
      | CastError => (st, failure ServerError "Failed to add item")
      | located =>
          let '(cart, isNew) :=
            match located with
            | Found c => (c, false)
            | _ => (newCart (Req.user r) (Req.sessionId r) st, true)
            end in
          match save isNew
                  (set_items (addLine n p (Req.image r) q (items cart)) cart) st with
          | Some (d, st') => (st', respond 201 "Item added" d)
          | None => (st, failure ServerError "Failed to add item")
          end
      end
  | _, _ => (st, failure BadRequest "Name and price are required")
  end.

(** GET /cart *)
Definition getCart (r : Req.t) (st : Store) : Store * Response :=
  match lookupCart (Req.user r) (Req.sessionId r) st with
  | CastError => (st, failure ServerError "Failed to fetch cart")
  | Found c => (st, mkRes 200 true None (Some (CartDoc c)))
  | NoCart => (st, mkRes 200 true None (Some (View [] 0%float)))
  end.

(** PUT /cart/update *)
Definition updateQuantity (r : Req.t) (st : Store) : Store * Response :=
  match lookupCart (Req.user r) (Req.sessionId r) st with
  | CastError => (st, failure ServerError "Failed to update item")
  | NoCart => (st, failure NotFound "Cart not found")
  | Found cart =>
      match list_find (λ item, Some (name item) = Req.name r) (items cart) with
      | None => (st, failure NotFound "Item not found in cart")
      | Some (i, _) =>
          match Req.quantity r with
          | None => (st, failure ServerError "Failed to update item")
          | Some q =>
              match save false (set_items (alter (set_quantity q) i (items cart)) cart) st with
              | Some (d, st') => (st', respond 200 "Quantity updated" d)
              | None => (st, failure ServerError "Failed to update item")
              end
          end
      end
  end.

(** DELETE /cart/remove *)
Definition removeItem (r : Req.t) (st : Store) : Store * Response :=
  match lookupCart (Req.user r) (Req.sessionId r) st with
  | CastError => (st, failure ServerError "Failed to remove item")
  | NoCart => (st, failure NotFound "Cart not found")
  | Found cart =>
      match save false
              (set_items (filter (λ item, Some (name item) ≠ Req.name r) (items cart)) cart)
              st with
      | Some (d, st') => (st', respond 200 "Item removed" d)
      | None => (st, failure ServerError "Failed to remove item")
      end
  end.

(** DELETE /cart/clear *)
Definition clear (r : Req.t) (st : Store) : Store * Response :=
  match lookupCart (Req.user r) (Req.sessionId r) st with
  | CastError => (st, failure ServerError "Failed to clear cart")
  | NoCart => (st, failure NotFound "Cart not found")
  | Found cart =>
      match save false (set_items [] cart) st with
      | Some (d, st') => (st', respond 200 "Cart cleared" d)
      | None => (st, failure ServerError "Failed to clear cart")
      end
  end.

(** One turn of the [guestCart.items.forEach] loop of POST /cart/merge. *)
Definition mergeLine (uitems : list CartItem) (gItem : CartItem) : list CartItem :=
  match list_find (λ item, name item = name gItem) uitems with
  | Some (i, _) => alter (add_quantity (quantity gItem)) i uitems
  | None => uitems ++ [gItem]
  end.

Definition mergeItems (uitems gitems : list CartItem) : list CartItem :=
  foldl mergeLine uitems gitems.

(** POST /cart/merge *)
Definition merge (r : Req.t) (st : Store) : Store * Response :=
  match truthyStr (Req.user r), truthyStr (Req.sessionId r) with
  | Some u, Some s =>
      let guest := findOne (bySession (Some s)) st in
      match findByUser u st with
      | CastError => (st, failure ServerError "Failed to merge cart")
      | own =>
          match guest with
          | None => (st, mkRes 200 true (Some "No guest cart") None)
          | Some guestCart =>
              match own with
              | Found userCart =>
                  match save false
                          (set_items (mergeItems (items userCart) (items guestCart))
                             userCart)
                          st with
                  | Some (d, st') =>
                      (mkStore (deleteOne (_id guestCart) (carts st')) (nextId st'),
                       respond 200 "Carts merged" d)
                  | None => (st, failure ServerError "Failed to merge cart")
                  end
              | _ =>
                  match save false (set_owner (Some u) None guestCart) st with
                  | Some (d, st') => (st', respond 200 "Cart merged" d)
                  | None => (st, failure ServerError "Failed to merge cart")
                  end
              end
          end
      end
  | _, _ => (st, failure BadRequest "User and sessionId required")
  end.

(** POST /cart/checkout *)
Definition checkout (r : Req.t) (st : Store) : Store * Response :=
  match lookupCart (Req.user r) (Req.sessionId r) st with
  | CastError => (st, failure ServerError "Checkout failed")
  | NoCart => (st, failure NotFound "Cart not found")
  | Found cart =>
      match save false (set_status ordered cart) st with
      | Some (d, st') => (st', respond 200 "Checkout complete" d)
      | None => (st, failure ServerError "Checkout failed")
      end
  end.

(** The seven routes as one transition function. *)
Inductive Op := AddItem | GetCart | UpdateQuantity | RemoveItem | Clear | Merge | Checkout.

Definition handle (o : Op) : Req.t → Store → Store * Response :=
  match o with
  | AddItem => addItem
  | GetCart => getCart
  | UpdateQuantity => updateQuantity
  | RemoveItem => removeItem
  | Clear => clear
  | Merge => merge
  | Checkout => checkout
  end.

(** Collections that a sequence of requests can produce from the empty one. *)
Inductive reachable : Store → Prop :=
  | reach_empty : reachable emptyStore
  | reach_step st o r : reachable st → reachable (handle o r st).1.

(** ** Specification vocabulary *)

(** The line of a given name: [items.find((item) => item.name === n)]. *)
Definition lineOf (n : string) (l : list CartItem) : option CartItem :=
  snd <$> list_find (λ item, name item = n) l.

Definition names (l : list CartItem) : list string := name <$> l.

Definition ids (l : list Cart) : list nat := _id <$> l.

Definition total_ok (c : Cart) : Prop := totalPrice c = cartTotal (items c).

Definition wfCart (c : Cart) : Prop :=
  validate c = true ∧ NoDup (names (items c)) ∧ total_ok c.

Definition wfStore (st : Store) : Prop :=
  Forall wfCart (carts st)
  ∧ NoDup (_id <$> carts st)
  ∧ Forall (λ c, (_id c < nextId st)%nat) (carts st).

(** The rational number a binary64 value stands for; an infinity and NaN
    stand for none. *)
Definition F2Q (f : float) : option Q :=
  match Prim2SF f with
  | S754_zero _ => Some 0%Q
  | S754_finite s m e =>
      Some (inject_Z (if s then Z.neg m else Z.pos m) * Qpower 2 e)%Q
  | _ => None
  end.

(** The spec's [Σ(item.price × item.quantity)], in exact arithmetic. *)
Fixpoint exactSum (l : list CartItem) : option Q :=
  match l with
  | [] => Some 0%Q
  | item :: l' =>
      match F2Q (price item), exactSum l' with
      | Some p, Some rest => Some (p * inject_Z (quantity item) + rest)%Q
      | _, _ => None
      end
  end.

(** No step of the reduce, started at [acc], rounds: each new accumulator
    stands for exactly the old one plus price times quantity. *)
Fixpoint noRounding (acc : float) (l : list CartItem) : bool :=
  match l with
  | [] => true
  | item :: l' =>
      let acc' := PrimFloat.add acc (PrimFloat.mul (price item) (Z2F (quantity item))) in
      match F2Q acc, F2Q (price item), F2Q acc' with
      | Some a, Some p, Some a' => Qeq_bool a' (a + p * inject_Z (quantity item))
      | _, _, _ => false
      end && noRounding acc' l'
  end.

(** The rational a finite price stands for; [exactSum] refuses the
    others, for which this is 0. *)
Definition priceQ (f : float) : Q := default 0%Q (F2Q f).

(** Price times quantity of a line, and the sum over the lines, in exact
    arithmetic. *)
Definition lineQ (item : CartItem) : Q :=
  (priceQ (price item) * inject_Z (quantity item))%Q.

Definition qsum (l : list CartItem) : Q :=
  foldr (λ item acc, lineQ item + acc)%Q 0%Q l.

Definition finitePrices (l : list CartItem) : Prop :=
  Forall (λ item, is_Some (F2Q (price item))) l.



(** Two user ids that cast to ObjectIds. *)
Definition alice : string := "64b7f0c2a1d3e4f5a6b7c8d9".
Definition bob : string := "5f1e2d3c4b5a69788796a5b4".

(** Sample requests used by the examples below. *)
Definition guestAdd (s n : string) (p : float) (q : Z) : Req.t :=
  Req.mk None (Some s) (Some n) (Some p) None (Some q).

Definition userAdd (u s n : string) (p : float) (q : Z) : Req.t :=
  Req.mk (Some u) (Some s) (Some n) (Some p) None (Some q).

Definition guestKey (s : string) : Req.t :=
  Req.mk None (Some s) None None None None.

Definition mergeReq (u s : string) : Req.t :=
  Req.mk (Some u) (Some s) None None None None.

Definition userKey (u : string) : Req.t :=
  Req.mk (Some u) None None None None None.

Definition ownerAdd (u n : string) (p : float) (q : Z) : Req.t :=
  Req.mk (Some u) None (Some n) (Some p) None (Some q).

Definition removeReq (s n : string) : Req.t :=
  Req.mk None (Some s) (Some n) None None None.

(** Sample collections: a guest cart alone; a guest cart and a user cart
    that share the line "Pen" at different prices. *)
Definition stGuest : Store :=
  (handle AddItem (guestAdd "s1" "Ink" 3 1)
     (handle AddItem (guestAdd "s1" "Pen" 5 3) emptyStore).1).1.

Definition stBoth : Store :=
  (handle AddItem (ownerAdd alice "Cap" 4 2)
     (handle AddItem (ownerAdd alice "Pen" 2 1) stGuest).1).1.

Definition guestDoc : Cart :=
  mkCart 0 None (Some "s1") [mkItem "Pen" 5 None 3; mkItem "Ink" 3 None 1] 18 active.

Definition userDoc : Cart :=
  mkCart 1 (Some alice) None [mkItem "Pen" 2 None 1; mkItem "Cap" 4 None 2] 10 active.

(** The same with the prices of "Pen" exchanged. *)
Definition stBoth' : Store :=
  (handle AddItem (ownerAdd alice "Pen" 5 1)
     (handle AddItem (guestAdd "s1" "Pen" 2 3) emptyStore).1).1.

(** A guest cart, then an add that carries both a user and the same
    session id. *)
Definition stTwoKeys : Store :=
  (handle AddItem (userAdd alice "s1" "Ink" 3 1)
     (handle AddItem (guestAdd "s1" "Pen" 2 3) emptyStore).1).1.

(** A single add that carries both a user and a session id. *)
Definition stOneDoc : Store :=
  (handle AddItem (userAdd alice "s1" "Ink" 3 1) emptyStore).1.

(** A cart whose one product is not a binary64 value. *)
Definition stBig : Store :=
  (handle AddItem (guestAdd "s1" "Pen" 9007199254740991 3) emptyStore).1.

(** A sequence of requests, served one after the other. *)
Definition run (reqs : list (Op * Req.t)) (st : Store) : Store :=
  foldl (λ acc req, (handle req.1 req.2 acc).1) st reqs.

(** ** JWT middleware (authenticateJWT)

    [jwt.verify] is a parameter: it yields the decoded claims or throws;
    the token it is given can be undefined. *)

(** The separator [" "]. *)
Definition space : Ascii.ascii :=
  Ascii.Ascii false false false false false true false false.

(** [s.split(sep)] for a one-character separator. *)
Fixpoint jsSplit (sep : Ascii.ascii) (s : string) : list string :=
  match s with
  | EmptyString => [EmptyString]
  | String a s' =>
      if Ascii.eqb a sep then EmptyString :: jsSplit sep s'
      else match jsSplit sep s' with
           | h :: t => String a h :: t
           | [] => [String a EmptyString]
           end
  end.

(** Strings without the separator. *)
Fixpoint noSpace (s : string) : bool :=
  match s with
  | EmptyString => true
  | String a s' => negb (Ascii.eqb a space) && noSpace s'
  end.

Inductive AuthOutcome (Claims : Type) :=
  | Next (decoded : Claims)
  | Denied (k : nat) (err : string).
Arguments Next {Claims} decoded.
Arguments Denied {Claims} k err.

Definition authenticateJWT {Claims : Type}
    (verify : option string → option Claims)
    (authHeader : option string) : AuthOutcome Claims :=
  match truthyStr authHeader with
  | Some h =>
      let token := jsSplit space h !! 1%nat in
      match verify token with
      | Some decoded => Next decoded
      | None => Denied 403 "Invalid or expired token"
      end
  | None => Denied 401 "Token not found. Unauthorized request"
  end.

(** * Properties *)

(** ** Lists of lines *)

Section Lines.
Implicit Types (l : list CartItem) (n m : string) (x : CartItem).

Lemma lineOf_nil n : lineOf n [] = None.
Proof. reflexivity. Qed.

Lemma lineOf_cons n x l :
  lineOf n (x :: l) = if decide (name x = n) then Some x else lineOf n l.
Proof.
  unfold lineOf. cbn. case_decide; [done|].
  destruct (list_find _ l) as [[i y]|]; done.
Qed.

Lemma lineOf_app n l1 l2 :
  lineOf n (l1 ++ l2) =
    match lineOf n l1 with Some x => Some x | None => lineOf n l2 end.
Proof.
  induction l1 as [|x l1 IH]; [done|].
  change ((x :: l1) ++ l2) with (x :: (l1 ++ l2)).
  rewrite !lineOf_cons, IH. by case_decide.
Qed.

Lemma lineOf_Some_name n l x : lineOf n l = Some x → name x = n.
Proof.
  induction l as [|y l IH]; [done|].
  rewrite lineOf_cons. case_decide; naive_solver.
Qed.

Lemma lineOf_None n l : lineOf n l = None ↔ n ∉ names l.
Proof.
  unfold names. induction l as [|y l IH].
  - split; [intros _; apply not_elem_of_nil | done].
  - rewrite lineOf_cons, fmap_cons, not_elem_of_cons.
    case_decide; [|rewrite IH]; intuition congruence.
Qed.

Lemma lineOf_is_Some n l : is_Some (lineOf n l) ↔ n ∈ names l.
Proof.
  rewrite <- not_eq_None_Some, lineOf_None.
  split; [apply dec_stable | auto].
Qed.

(** Updating the first line named [m] in place with a function that
    keeps names. *)
Lemma lineOf_alter_found (f : CartItem → CartItem) n m l i y :
  (∀ x, name (f x) = name x) →
  list_find (λ item, name item = m) l = Some (i, y) →
  lineOf n (alter f i l) = if decide (n = m) then Some (f y) else lineOf n l.
Proof.
  intros Hf. revert i. induction l as [|x l IH]; intros i Hfind; [done|].
  cbn [list_find] in Hfind. destruct (decide (name x = m)) as [Hx|Hx].
  - simplify_eq. cbn [alter list_alter]. rewrite !lineOf_cons, Hf.
    repeat case_decide; congruence.
  - destruct (list_find _ l) as [[j z]|] eqn:Hl; [|done].
    cbn in Hfind. simplify_eq. cbn [alter list_alter].
    rewrite !lineOf_cons, (IH j eq_refl).
    repeat case_decide; congruence.
Qed.

Lemma names_alter (f : CartItem → CartItem) i l :
  (∀ x, name (f x) = name x) → names (alter f i l) = names l.
Proof.
  intros Hf. unfold names. revert i.
  induction l as [|x l IH]; intros [|i]; cbn; rewrite ?Hf, ?IH; done.
Qed.

Lemma list_find_lineOf n l i y :
  list_find (λ item, name item = n) l = Some (i, y) → lineOf n l = Some y.
Proof. unfold lineOf. by intros ->. Qed.

Lemma list_find_lineOf_None n l :
  list_find (λ item, name item = n) l = None → lineOf n l = None.
Proof. unfold lineOf. by intros ->. Qed.

End Lines.

(** ** The collection: lookups and writes *)

Section Collection.
Context (P : Cart → Prop) `{∀ c, Decision (P c)}.
Implicit Types (l : list Cart) (c d : Cart) (st : Store).

(** [findOne] returns the first match. *)
Lemma find_first l c :
  snd <$> list_find P l = Some c ↔
  ∃ l1 l2, l = l1 ++ c :: l2 ∧ P c ∧ Forall (λ x, ¬ P x) l1.
Proof.
  induction l as [|x l IH]; cbn [list_find].
  - split; [done|]. intros ([|? ?] & ? & ? & _); simplify_eq/=.
  - destruct (decide (P x)) as [Hx|Hx]; cbn.
    + split.
      * intros ?; simplify_eq. by exists [], l.
      * intros (l1 & l2 & Heq & Hc & Hl1).
        destruct Hl1 as [|y k Hy Hk]; simplify_eq/=; done.
    + rewrite <- option_fmap_compose.
      assert (snd ∘ prod_map S id = @snd nat Cart) as -> by done.
      rewrite IH. split.
      * intros (l1 & l2 & -> & ? & ?). exists (x :: l1), l2.
        split_and!; [done..|]. by constructor.
      * intros (l1 & l2 & Heq & Hc & Hl1).
        destruct Hl1 as [|y k Hy Hk]; simplify_eq/=; [done|]. by exists k, l2.
Qed.

Lemma find_none l :
  snd <$> list_find P l = None ↔ Forall (λ x, ¬ P x) l.
Proof.
  rewrite fmap_None, list_find_None. done.
Qed.

Lemma findOne_Some st c :
  findOne P st = Some c ↔
  ∃ l1 l2, carts st = l1 ++ c :: l2 ∧ P c ∧ Forall (λ x, ¬ P x) l1.
Proof. apply find_first. Qed.

Lemma findOne_None st : findOne P st = None ↔ Forall (λ x, ¬ P x) (carts st).
Proof. apply find_none. Qed.

Lemma findOne_elem st c : findOne P st = Some c → c ∈ carts st ∧ P c.
Proof.
  intros (l1 & l2 & -> & ? & _)%findOne_Some. split; [|done].
  apply elem_of_app. right. left.
Qed.
End Collection.

Section Writes.
Implicit Types (l : list Cart) (c d : Cart) (i : nat).

Lemma ids_updateOne d l : ids (updateOne d l) = ids l.
Proof.
  unfold ids. induction l as [|c l IH]; [done|]. cbn.
  case_decide as Hc; cbn; [by rewrite Hc | by rewrite IH].
Qed.

Lemma updateOne_split d c l1 l2 :
  _id d = _id c → _id c ∉ ids l1 →
  updateOne d (l1 ++ c :: l2) = l1 ++ d :: l2.
Proof.
  intros Hd. unfold ids. induction l1 as [|x l1 IH]; cbn.
  - intros _. by rewrite decide_True.
  - rewrite not_elem_of_cons. intros [Hx Hl1].
    rewrite decide_False by congruence. by rewrite IH.
Qed.

Lemma updateOne_Forall (Q : Cart → Prop) d l :
  Q d → Forall Q l → Forall Q (updateOne d l).
Proof.
  intros Hd. induction 1 as [|c l Hc Hl IH]; cbn; [constructor|].
  case_decide; by constructor.
Qed.


Lemma split_fresh c l1 l2 :
  NoDup (ids (l1 ++ c :: l2)) → (_id c ∉ ids l1) ∧ (_id c ∉ ids l2).
Proof.
  unfold ids. rewrite fmap_app, fmap_cons.
  intros Hnd. apply NoDup_app in Hnd as (_ & Hnd & Hc).
  apply NoDup_cons in Hc as [? _]. split; [|done].
  intros Hin. apply (Hnd _ Hin). left.
Qed.

Lemma deleteOne_elem i d l : d ∈ deleteOne i l → d ∈ l.
Proof.
  induction l as [|c l IH]; cbn; [done|].
  case_decide; [by right|]. intros [->|Hin]%elem_of_cons; [left | right; auto].
Qed.

Lemma deleteOne_Forall (Q : Cart → Prop) i l : Forall Q l → Forall Q (deleteOne i l).
Proof.
  rewrite !Forall_forall. intros Hl d Hd%deleteOne_elem. auto.
Qed.

Lemma deleteOne_NoDup i l : NoDup (ids l) → NoDup (ids (deleteOne i l)).
Proof.
  unfold ids. induction l as [|c l IH]; cbn; [done|].
  intros [Hc Hl]%NoDup_cons. case_decide; [done|].
  cbn. apply NoDup_cons. split; [|auto].
  intros (d & Hid & Hd%deleteOne_elem)%list_elem_of_fmap.
  apply Hc. rewrite Hid. by apply list_elem_of_fmap_2.
Qed.

Lemma deleteOne_gone i l : NoDup (ids l) → i ∉ ids (deleteOne i l).
Proof.
  unfold ids. induction l as [|c l IH]; cbn; [intros _; apply not_elem_of_nil|].
  intros [Hc Hl]%NoDup_cons. case_decide as Hi; [by subst|].
  cbn. rewrite not_elem_of_cons. auto.
Qed.

Lemma deleteOne_other i d l : d ∈ l → _id d ≠ i → d ∈ deleteOne i l.
Proof.
  induction l as [|c l IH]; cbn; [done|].
  intros [->|Hin]%elem_of_cons Hne.
  - rewrite decide_False by done. left.
  - case_decide; [done|]. right. auto.
Qed.
End Writes.

(** ** Adding and merging lines *)

Section AddMerge.
Implicit Types (l us gs : list CartItem) (n m : string) (x g : CartItem)
  (p : float) (q : Z) (img : option string).

Lemma name_add_quantity q x : name (add_quantity q x) = name x.
Proof. done. Qed.

Lemma name_set_quantity q x : name (set_quantity q x) = name x.
Proof. done. Qed.

Lemma mergeLine_addLine us g :
  mergeLine us g = addLine (name g) (price g) (image g) (quantity g) us.
Proof. by destruct g. Qed.

Lemma lineOf_addLine m n p img q l :
  lineOf m (addLine n p img q l) =
    if decide (m = n)
    then Some (match lineOf n l with
               | Some old => add_quantity q old
               | None => mkItem n p img q
               end)
    else lineOf m l.
Proof.
  unfold addLine.
  destruct (list_find _ l) as [[i y]|] eqn:Hfind.
  - rewrite (lineOf_alter_found _ m n l i y (name_add_quantity q) Hfind).
    by rewrite (list_find_lineOf _ _ _ _ Hfind).
  - apply list_find_lineOf_None in Hfind.
    rewrite lineOf_app, lineOf_cons, lineOf_nil, Hfind. cbn.
    case_decide; subst.
    + by rewrite Hfind, decide_True.
    + rewrite decide_False by done. by destruct (lineOf m l).
Qed.

Lemma names_addLine n p img q l :
  names (addLine n p img q l) =
    if decide (n ∈ names l) then names l else names l ++ [n].
Proof.
  unfold addLine.
  destruct (list_find _ l) as [[i y]|] eqn:Hfind.
  - rewrite names_alter by done. rewrite decide_True; [done|].
    apply lineOf_is_Some. rewrite (list_find_lineOf _ _ _ _ Hfind). by eexists.
  - rewrite decide_False by by apply lineOf_None, list_find_lineOf_None.
    unfold names. by rewrite fmap_app.
Qed.

Lemma NoDup_addLine n p img q l :
  NoDup (names l) → NoDup (names (addLine n p img q l)).
Proof.
  intros Hl. rewrite names_addLine. case_decide as Hn; [done|].
  apply NoDup_app. split_and!; [done| |apply NoDup_singleton].
  intros y Hy ->%list_elem_of_singleton. done.
Qed.


(** The loop of /cart/merge, line by line. *)
Lemma lineOf_mergeItems m us gs :
  NoDup (names gs) →
  lineOf m (mergeItems us gs) =
    match lineOf m us, lineOf m gs with
    | Some u, Some g => Some (add_quantity (quantity g) u)
    | Some u, None => Some u
    | None, Some g => Some g
    | None, None => None
    end.
Proof.
  unfold mergeItems. revert us.
  induction gs as [|g gs IH]; intros us Hnd.
  - cbn [foldl]. rewrite lineOf_nil. by destruct (lineOf m us).
  - unfold names in Hnd. rewrite fmap_cons in Hnd.
    apply NoDup_cons in Hnd as [Hg Hgs].
    cbn [foldl]. rewrite (IH _ Hgs), mergeLine_addLine, lineOf_addLine, lineOf_cons.
    destruct (decide (m = name g)) as [->|Hm].
    + rewrite decide_True by done.
      apply lineOf_None in Hg. rewrite Hg.
      destruct (lineOf (name g) us); [done|]. by destruct g.
    + by rewrite decide_False.
Qed.

Lemma NoDup_mergeItems us gs :
  NoDup (names us) → NoDup (names (mergeItems us gs)).
Proof.
  unfold mergeItems. revert us.
  induction gs as [|g gs IH]; intros us Hus; [done|].
  cbn [foldl]. apply IH. rewrite mergeLine_addLine. by apply NoDup_addLine.
Qed.


(** Validation. *)
Lemma forallb_validItem l :
  forallb validItem l = true ↔ Forall (λ x, validItem x = true) l.
Proof.
  induction l as [|x l IH]; cbn.
  - split; [constructor | done].
  - rewrite andb_true_iff, Forall_cons, IH. done.
Qed.

Lemma validate_Forall (c : Cart) :
  validate c = true ↔
  userCasts c = true ∧ Forall (λ x, validItem x = true) (items c).
Proof. unfold validate. by rewrite andb_true_iff, forallb_validItem. Qed.

(** A document keeps validating when its lines are replaced by valid ones. *)
Lemma validate_set_items (c : Cart) l :
  userCasts c = true → Forall (λ x, validItem x = true) l →
  validate (set_items l c) = true.
Proof. intros Hu Hl. by apply validate_Forall. Qed.

Lemma validItem_spec x : validItem x = true ↔ name x ≠ "" ∧ 1 ≤ quantity x.
Proof.
  unfold validItem. rewrite andb_true_iff, negb_true_iff, Z.leb_le.
  destruct (String.eqb_spec (name x) ""); intuition congruence.
Qed.

Lemma valid_add_quantity q x :
  0 ≤ q → validItem x = true → validItem (add_quantity q x) = true.
Proof. rewrite !validItem_spec. cbn. intros ? [? ?]. split; [done | lia]. Qed.

Lemma valid_addLine n p img q l :
  n ≠ "" → 1 ≤ q →
  Forall (λ x, validItem x = true) l →
  Forall (λ x, validItem x = true) (addLine n p img q l).
Proof.
  intros Hn Hq Hl. unfold addLine.
  destruct (list_find _ l) as [[i y]|].
  - apply Forall_alter; [done|]. intros x _ Hx. apply valid_add_quantity; [lia | done].
  - apply Forall_app. split; [done|]. constructor; [|constructor].
    by apply validItem_spec.
Qed.

Lemma valid_mergeItems us gs :
  Forall (λ x, validItem x = true) us →
  Forall (λ x, validItem x = true) gs →
  Forall (λ x, validItem x = true) (mergeItems us gs).
Proof.
  unfold mergeItems. revert us.
  induction gs as [|g gs IH]; intros us Hus Hgs; [done|].
  apply Forall_cons in Hgs as [Hg Hgs]. cbn [foldl]. apply IH; [|done].
  rewrite mergeLine_addLine. apply validItem_spec in Hg as [? ?].
  by apply valid_addLine.
Qed.
End AddMerge.

(** ** Well-formed collections are closed under every route *)

Section WellFormed.
Implicit Types (c d : Cart) (st : Store) (r : Req.t).

Lemma save_Some isNew c st d st' :
  save isNew c st = Some (d, st') ↔
  validate c = true ∧ d = preSave c ∧
  st' = (if isNew
         then mkStore (carts st ++ [d]) (S (nextId st))
         else mkStore (updateOne d (carts st)) (nextId st)).
Proof.
  unfold save. destruct (validate c); [|split; [done | intros (? & _); done]].
  split; [intros ?; by simplify_eq | intros (_ & -> & ->); done].
Qed.

Lemma save_valid isNew c st :
  validate c = true →
  save isNew c st =
    Some (preSave c,
          if isNew
          then mkStore (carts st ++ [preSave c]) (S (nextId st))
          else mkStore (updateOne (preSave c) (carts st)) (nextId st)).
Proof. unfold save. by intros ->. Qed.

Lemma total_ok_preSave c : total_ok (preSave c).
Proof. done. Qed.

Lemma preSave_id c : total_ok c → preSave c = c.
Proof. unfold total_ok, preSave. destruct c; cbn. by intros ->. Qed.

Lemma wfCart_preSave c :
  validate c = true → NoDup (names (items c)) → wfCart (preSave c).
Proof. by intros ? ?. Qed.

Lemma wfStore_update st d :
  wfStore st → wfCart d → wfStore (mkStore (updateOne d (carts st)) (nextId st)).
Proof.
  intros (Hwf & Hnd & Hlt) Hd. split_and!; cbn.
  - by apply updateOne_Forall.
  - fold (ids (updateOne d (carts st))). by rewrite ids_updateOne.
  - rewrite Forall_forall in Hlt. apply Forall_forall. intros x Hx.
    assert (_id x ∈ ids (carts st)) as (y & -> & Hy)%list_elem_of_fmap; [|auto].
    rewrite <- (ids_updateOne d). by apply list_elem_of_fmap_2.
Qed.

Lemma wfStore_insert st d :
  wfStore st → wfCart d → _id d = nextId st →
  wfStore (mkStore (carts st ++ [d]) (S (nextId st))).
Proof.
  intros (Hwf & Hnd & Hlt) Hd Hid. split_and!; cbn.
  - apply Forall_app. split; [done|]. by apply Forall_singleton.
  - rewrite fmap_app. apply NoDup_app. split_and!; [done| |apply NoDup_singleton].
    intros i (y & -> & Hy)%list_elem_of_fmap Hi%list_elem_of_singleton.
    rewrite Forall_forall in Hlt. specialize (Hlt _ Hy). lia.
  - apply Forall_app. split.
    + eapply Forall_impl; [done|]. cbn. lia.
    + apply Forall_singleton. lia.
Qed.

Lemma wfStore_delete st i :
  wfStore st → wfStore (mkStore (deleteOne i (carts st)) (nextId st)).
Proof.
  intros (Hwf & Hnd & Hlt). split_and!; cbn.
  - by apply deleteOne_Forall.
  - by apply deleteOne_NoDup.
  - by apply deleteOne_Forall.
Qed.

Lemma save_wf isNew c st d st' :
  wfStore st → NoDup (names (items c)) →
  (isNew = true → _id c = nextId st) →
  save isNew c st = Some (d, st') → wfStore st'.
Proof.
  intros Hst Hnd Hid (Hv & -> & ->)%save_Some.
  destruct isNew.
  - apply wfStore_insert; [done | by apply wfCart_preSave | by apply Hid].
  - apply wfStore_update; [done | by apply wfCart_preSave].
Qed.

Lemma wf_elem st c : wfStore st → c ∈ carts st → wfCart c.
Proof. intros (Hwf & _) Hc. rewrite Forall_forall in Hwf. auto. Qed.

Lemma found_Found o c : found o = Found c ↔ o = Some c.
Proof. destruct o; cbn; split; intros ?; by simplify_eq. Qed.

Lemma found_NoCart o : found o = NoCart ↔ o = None.
Proof. by destruct o. Qed.

Lemma findByUser_Found u st c :
  findByUser u st = Found c ↔
  isObjectId u = true ∧ findOne (byUser (Some u)) st = Some c.
Proof.
  unfold findByUser. destruct (isObjectId u).
  - rewrite found_Found. by split; [|intros [_ ?]].
  - by split; [|intros [? _]].
Qed.

Lemma findByUser_NoCart u st :
  findByUser u st = NoCart ↔
  isObjectId u = true ∧ findOne (byUser (Some u)) st = None.
Proof.
  unfold findByUser. destruct (isObjectId u).
  - rewrite found_NoCart. by split; [|intros [_ ?]].
  - by split; [|intros [? _]].
Qed.

Lemma findByUser_CastError u st :
  findByUser u st = CastError ↔ isObjectId u = false.
Proof.
  unfold findByUser. destruct (isObjectId u); [|done].
  by destruct (findOne _ st).
Qed.

Lemma findByUser_elem u st c :
  findByUser u st = Found c → c ∈ carts st ∧ byUser (Some u) c.
Proof. intros [_ Hc]%findByUser_Found. exact (findOne_elem _ st c Hc). Qed.

Lemma lookupCart_elem u s st c :
  lookupCart u s st = Found c → c ∈ carts st ∧ status c = active.
Proof.
  unfold lookupCart. destruct (truthyStr u).
  - intros [? [_ ?]]%findByUser_elem. done.
  - intros [? [_ ?]]%found_Found%findOne_elem. done.
Qed.

(** The lookup throws exactly when the request names a user, by a
    non-empty string that is not an ObjectId. *)
Lemma lookupCart_CastError u s st :
  lookupCart u s st = CastError ↔
  ∃ uid, truthyStr u = Some uid ∧ isObjectId uid = false.
Proof.
  unfold lookupCart. destruct (truthyStr u) as [uid|].
  - rewrite findByUser_CastError. split; [by exists uid | by intros (? & [= <-] & ?)].
  - split; [by destruct (findOne _ st) | by intros (? & ? & _)].
Qed.

Lemma wf_lookup u s st c : wfStore st → lookupCart u s st = Found c → wfCart c.
Proof. intros Hst [Hc _]%lookupCart_elem. by eapply wf_elem. Qed.

Lemma addItem_wf r st : wfStore st → wfStore (addItem r st).1.
Proof.
  intros Hst. unfold addItem.
  destruct (truthyStr (Req.name r)) as [n|]; [|done].
  destruct (truthyNum (Req.price r)) as [p|]; [|done].
  destruct (lookupCart _ _ st) as [c| |] eqn:Hc; [| |done].
  - destruct (save _ _ _) as [[d st']|] eqn:Hsave; [|done]. cbn.
    refine (save_wf _ _ _ _ _ Hst _ _ Hsave); cbn; [| try done; discriminate].
    apply NoDup_addLine. by apply (wf_lookup _ _ _ _ Hst Hc).
  - destruct (save _ _ _) as [[d st']|] eqn:Hsave; [|done]. cbn.
    refine (save_wf _ _ _ _ _ Hst _ _ Hsave); cbn; [| try done; discriminate].
    apply NoDup_singleton.
Qed.

Lemma updateQuantity_wf r st : wfStore st → wfStore (updateQuantity r st).1.
Proof.
  intros Hst. unfold updateQuantity.
  destruct (lookupCart _ _ st) as [c| |] eqn:Hc; [|done..].
  destruct (list_find _ _) as [[i y]|]; [|done].
  destruct (Req.quantity r) as [q|]; [|done].
  destruct (save _ _ _) as [[d st']|] eqn:Hsave; [|done]. cbn.
  refine (save_wf _ _ _ _ _ Hst _ _ Hsave); cbn; [| try done; discriminate].
  rewrite names_alter by done. by apply (wf_lookup _ _ _ _ Hst Hc).
Qed.

Lemma NoDup_names_filter (Q : CartItem → Prop) `{∀ x, Decision (Q x)} l :
  NoDup (names l) → NoDup (names (filter Q l)).
Proof.
  unfold names. induction l as [|x l IH]; [done|].
  rewrite fmap_cons, NoDup_cons. intros [Hx Hl].
  rewrite filter_cons. case_decide; [|auto].
  rewrite fmap_cons, NoDup_cons. split; [|auto].
  intros (y & Hy & [_ Hin]%list_elem_of_filter)%list_elem_of_fmap.
  apply Hx. rewrite Hy. by apply list_elem_of_fmap_2.
Qed.

Lemma removeItem_wf r st : wfStore st → wfStore (removeItem r st).1.
Proof.
  intros Hst. unfold removeItem.
  destruct (lookupCart _ _ st) as [c| |] eqn:Hc; [|done..].
  destruct (save _ _ _) as [[d st']|] eqn:Hsave; [|done]. cbn.
  refine (save_wf _ _ _ _ _ Hst _ _ Hsave); cbn; [| try done; discriminate].
  apply NoDup_names_filter. by apply (wf_lookup _ _ _ _ Hst Hc).
Qed.

Lemma clear_wf r st : wfStore st → wfStore (clear r st).1.
Proof.
  intros Hst. unfold clear.
  destruct (lookupCart _ _ st) as [c| |] eqn:Hc; [|done..].
  destruct (save _ _ _) as [[d st']|] eqn:Hsave; [|done]. cbn.
  refine (save_wf _ _ _ _ _ Hst _ _ Hsave); cbn; [| try done; discriminate]. constructor.
Qed.

Lemma checkout_wf r st : wfStore st → wfStore (checkout r st).1.
Proof.
  intros Hst. unfold checkout.
  destruct (lookupCart _ _ st) as [c| |] eqn:Hc; [|done..].
  destruct (save _ _ _) as [[d st']|] eqn:Hsave; [|done]. cbn.
  refine (save_wf _ _ _ _ _ Hst _ _ Hsave); cbn; [| try done; discriminate].
  by apply (wf_lookup _ _ _ _ Hst Hc).
Qed.

Lemma merge_wf r st : wfStore st → wfStore (merge r st).1.
Proof.
  intros Hst. unfold merge.
  destruct (truthyStr (Req.user r)) as [u|]; [|done].
  destruct (truthyStr (Req.sessionId r)) as [s|]; [|done].
  destruct (findByUser u st) as [c| |] eqn:Hc; [| |done];
    (destruct (findOne (bySession _) st) as [g|] eqn:Hg; [|done]);
    apply findOne_elem in Hg as [Hg _].
  - apply findByUser_elem in Hc as [Hc _].
    destruct (save _ _ _) as [[d st']|] eqn:Hsave; [|done]. cbn.
    apply wfStore_delete.
    refine (save_wf _ _ _ _ _ Hst _ _ Hsave); cbn; [| try done; discriminate].
    apply NoDup_mergeItems. by apply (wf_elem _ _ Hst Hc).
  - destruct (save _ _ _) as [[d st']|] eqn:Hsave; [|done]. cbn.
    refine (save_wf _ _ _ _ _ Hst _ _ Hsave); cbn; [| try done; discriminate].
    by apply (wf_elem _ _ Hst Hg).
Qed.

Lemma getCart_same r st : (getCart r st).1 = st.
Proof. unfold getCart. by destruct (lookupCart _ _ st). Qed.

Lemma handle_wf o r st : wfStore st → wfStore (handle o r st).1.
Proof.
  destruct o; cbn [handle]; rewrite ?getCart_same;
    auto using addItem_wf, updateQuantity_wf, removeItem_wf, clear_wf,
      merge_wf, checkout_wf.
Qed.

Lemma wfStore_empty : wfStore emptyStore.
Proof. split_and!; cbn; constructor. Qed.

Lemma reachable_wf st : reachable st → wfStore st.
Proof. induction 1; [apply wfStore_empty | by apply handle_wf]. Qed.
End WellFormed.

(** ** The total is a derived field *)

Section Totals.
Implicit Types (c d : Cart) (st : Store) (r : Req.t).

(** Whatever document a route answers with has been through the
    pre-save hook, or is a stored cart read back. *)
Lemma handle_data_total o r st c :
  wfStore st → data (handle o r st).2 = Some (CartDoc c) → total_ok c.
Proof.
  intros Hst.
  assert (∀ isNew x d st', save isNew x st = Some (d, st') → total_ok d) as Hsaved.
  { intros ???? (_ & -> & _)%save_Some. apply total_ok_preSave. }
  destruct o; cbn [handle].
  - unfold addItem.
    destruct (truthyStr (Req.name r)); [|done].
    destruct (truthyNum (Req.price r)); [|done].
    destruct (lookupCart _ _ st); [| |done];
      destruct (save _ _ _) as [[d st']|] eqn:Hsave; cbn; intros ?; simplify_eq; eauto.
  - unfold getCart.
    destruct (lookupCart _ _ st) eqn:Hc; cbn; intros ?; simplify_eq.
    by apply (wf_lookup _ _ _ _ Hst Hc).
  - unfold updateQuantity.
    destruct (lookupCart _ _ st); [|done..].
    destruct (list_find _ _) as [[i y]|]; [|done].
    destruct (Req.quantity r); [|done].
    destruct (save _ _ _) as [[d st']|] eqn:Hsave; cbn; intros ?; simplify_eq; eauto.
  - unfold removeItem.
    destruct (lookupCart _ _ st); [|done..].
    destruct (save _ _ _) as [[d st']|] eqn:Hsave; cbn; intros ?; simplify_eq; eauto.
  - unfold clear.
    destruct (lookupCart _ _ st); [|done..].
    destruct (save _ _ _) as [[d st']|] eqn:Hsave; cbn; intros ?; simplify_eq; eauto.
  - unfold merge.
    destruct (truthyStr (Req.user r)); [|done].
    destruct (truthyStr (Req.sessionId r)); [|done].
    destruct (findByUser _ st); [| |done];
      (destruct (findOne (bySession _) st); [|done]);
      destruct (save _ _ _) as [[d st']|] eqn:Hsave; cbn; intros ?; simplify_eq; eauto.
  - unfold checkout.
    destruct (lookupCart _ _ st); [|done..].
    destruct (save _ _ _) as [[d st']|] eqn:Hsave; cbn; intros ?; simplify_eq; eauto.
Qed.

Lemma wfStore_totals st : wfStore st → Forall total_ok (carts st).
Proof.
  intros (Hwf & _). eapply Forall_impl; [done|]. by intros c (_ & _ & ?).
Qed.

(** When no step rounds, the reduce started at [acc] ends on the value of
    [acc] plus the exact sum of the lines. *)
Lemma reduce_exact (l : list CartItem) (acc : float) (a : Q) :
  F2Q acc = Some a → noRounding acc l = true →
  ∃ t s,
    F2Q (foldl (λ acc item,
                  PrimFloat.add acc (PrimFloat.mul (price item) (Z2F (quantity item))))
           acc l) = Some t
    ∧ exactSum l = Some s ∧ (t == a + s)%Q.
Proof.
  revert acc a. induction l as [|item l IH]; intros acc a Hacc Hno.
  - exists a, 0%Q. split_and!; [done..|]. ring.
  - cbn [noRounding] in Hno. apply andb_true_iff in Hno as [Hstep Hrest].
    rewrite Hacc in Hstep.
    destruct (F2Q (price item)) as [p|] eqn:Hp; [|done].
    destruct (F2Q (PrimFloat.add acc _)) as [a'|] eqn:Ha'; [|done].
    apply Qeq_bool_iff in Hstep.
    destruct (IH _ a' Ha' Hrest) as (t & s & Ht & Hs & Heq).
    exists t, (p * inject_Z (quantity item) + s)%Q.
    cbn [foldl exactSum]. rewrite Ht, Hp, Hs. split_and!; [done..|].
    rewrite Heq, Hstep. ring.
Qed.

Lemma cartTotal_exact (l : list CartItem) :
  noRounding 0 l = true →
  ∃ t s, F2Q (cartTotal l) = Some t ∧ exactSum l = Some s ∧ (t == s)%Q.
Proof.
  intros Hno. destruct (reduce_exact l 0%float 0%Q eq_refl Hno)
    as (t & s & Ht & Hs & Heq).
  exists t, s. split_and!; [done..|]. rewrite Heq. ring.
Qed.
End Totals.

(** C1, as the code has it.  In every collection the routes can produce
    from the empty one, after any further request (add, update, remove,
    clear, merge, checkout, or a read) every stored cart, and the cart the
    response carries, has [totalPrice] equal to the reduce of the pre-save
    hook over its lines, the only writer of the field: the sum of price
    times quantity taken from the left in binary64 arithmetic.  That
    number is the exact sum of price times quantity whenever no step of
    the reduce rounds. *)
Theorem totalPrice_is_derived st o r c :
  reachable st →
  c ∈ carts (handle o r st).1 ∨ data (handle o r st).2 = Some (CartDoc c) →
  totalPrice c = cartTotal (items c)
  ∧ (noRounding 0 (items c) = true →
     ∃ t s, F2Q (totalPrice c) = Some t ∧ exactSum (items c) = Some s
            ∧ (t == s)%Q).
Proof.
  intros Hst%reachable_wf Hc.
  assert (totalPrice c = cartTotal (items c)) as Htot.
  { destruct Hc as [Hc|Hc].
    - pose proof (wfStore_totals _ (handle_wf o r st Hst)) as Hall.
      rewrite Forall_forall in Hall. by apply Hall.
    - by apply (handle_data_total o r st c Hst). }
  split; [done|]. rewrite Htot. apply cartTotal_exact.
Qed.

Lemma totalPrice_is_derived_witness :
  ∃ t s, F2Q 14%float = Some t
         ∧ exactSum [mkItem "Pen" 2 None 7] = Some s ∧ (t == s)%Q.
Proof.
  apply (totalPrice_is_derived
           (handle AddItem (guestAdd "s1" "Pen" 2 3) emptyStore).1
           UpdateQuantity (guestAdd "s1" "Pen" 2 7)
           (mkCart 0 None (Some "s1") [mkItem "Pen" 2 None 7] 14 active)).
  - apply (reach_step emptyStore AddItem (guestAdd "s1" "Pen" 2 3)).
    apply reach_empty.
  - right. reflexivity.
  - reflexivity.
Defined.

(** C1, the sentence of the specification refuted: one add of 3 units at
    price 9007199254740991 stores a cart whose total is
    27021597764222972, where price times quantity is 27021597764222973. *)
Lemma totalPrice_rounds :
  reachable stBig
  ∧ ∃ c t s,
      carts stBig = [c]
      ∧ items c = [mkItem "Pen" 9007199254740991 None 3]
      ∧ totalPrice c = 27021597764222972%float
      ∧ F2Q (totalPrice c) = Some t ∧ (t == 27021597764222972)%Q
      ∧ exactSum (items c) = Some s ∧ (s == 27021597764222973)%Q
      ∧ ¬ (t == s)%Q.
Proof.
  split; [apply reach_step, reach_empty|].
  do 3 eexists. split_and!; [reflexivity.. | by vm_compute].
Qed.

(** ** Merge on login *)

Section MergeRoute.
Implicit Types (c d g : Cart) (st : Store) (r : Req.t) (u s n : string).

Lemma wfCart_valid c : wfCart c → Forall (λ x, validItem x = true) (items c).
Proof. intros (Hv & _). by apply validate_Forall in Hv as [_ ?]. Qed.

Lemma wfCart_casts c : wfCart c → userCasts c = true.
Proof. intros (Hv & _). by apply validate_Forall in Hv as [? _]. Qed.



(** Both carts exist: what the route computes. *)
Lemma merge_both_eq st r u s g c :
  wfStore st →
  truthyStr (Req.user r) = Some u → truthyStr (Req.sessionId r) = Some s →
  findOne (bySession (Some s)) st = Some g →
  findByUser u st = Found c →
  merge r st =
    (mkStore (deleteOne (_id g)
                (updateOne (preSave (set_items (mergeItems (items c) (items g)) c))
                   (carts st)))
       (nextId st),
     respond 200 "Carts merged"
       (preSave (set_items (mergeItems (items c) (items g)) c))).
Proof.
  intros Hst Hu Hs Hg Hc. unfold merge. rewrite Hu, Hs, Hg, Hc.
  rewrite save_valid; [done|].
  apply findOne_elem in Hg as [Hg _]. apply findByUser_elem in Hc as [Hc _].
  apply validate_set_items.
  - by eapply wfCart_casts, wf_elem.
  - apply valid_mergeItems; apply wfCart_valid; by eapply wf_elem.
Qed.

(** Only the guest cart exists: the guest document itself is re-owned. *)
Lemma merge_rename_eq st r u s g :
  wfStore st →
  truthyStr (Req.user r) = Some u → truthyStr (Req.sessionId r) = Some s →
  findOne (bySession (Some s)) st = Some g →
  findByUser u st = NoCart →
  merge r st =
    (mkStore (updateOne (set_owner (Some u) None g) (carts st)) (nextId st),
     respond 200 "Cart merged" (set_owner (Some u) None g)).
Proof.
  intros Hst Hu Hs Hg Hc. unfold merge. rewrite Hu, Hs, Hg, Hc.
  apply findOne_elem in Hg as [Hg _]. apply findByUser_NoCart in Hc as [Hcast _].
  pose proof (wf_elem _ _ Hst Hg) as (Hv & _ & Htot).
  rewrite save_valid.
  - rewrite preSave_id; done.
  - apply validate_Forall in Hv as [_ Hv]. by apply validate_Forall.
Qed.

Lemma filter_none (P : Cart → Prop) `{∀ x, Decision (P x)} (l : list Cart) :
  Forall (λ x, ¬ P x) l → filter P l = [].
Proof.
  induction 1 as [|x l Hx Hl IH]; [done|].
  by rewrite filter_cons, decide_False.
Qed.
End MergeRoute.


Lemma reachable_stGuest : reachable stGuest.
Proof. unfold stGuest. do 2 apply reach_step. apply reach_empty. Qed.

Lemma reachable_stBoth : reachable stBoth.
Proof. unfold stBoth. do 2 apply reach_step. apply reachable_stGuest. Qed.

Lemma reachable_stBoth' : reachable stBoth'.
Proof. unfold stBoth'. do 2 apply reach_step. apply reach_empty. Qed.

Lemma reachable_stTwoKeys : reachable stTwoKeys.
Proof. unfold stTwoKeys. do 2 apply reach_step. apply reach_empty. Qed.




(** C10.  When both carts hold a line of the same name, the merged line
    is the user's line with the guest quantity added: it keeps the user
    cart's price (and image) whatever the guest's price was.  The merged
    total can therefore fall below, or exceed, the sum of the two totals:
    each happens for a merge request whose guest cart and user cart hold
    a line of one name at two different prices. *)
Theorem merge_keeps_user_price :
  (∀ st r u s g c n lu lg,
     reachable st →
     truthyStr (Req.user r) = Some u → truthyStr (Req.sessionId r) = Some s →
     findOne (bySession (Some s)) st = Some g →
     findByUser u st = Found c →
     lineOf n (items c) = Some lu → lineOf n (items g) = Some lg →
     ∃ d, (merge r st).2 = respond 200 "Carts merged" d
       ∧ lineOf n (items d) =
           Some (mkItem n (price lu) (image lu) (quantity lu + quantity lg)))
  ∧ (∃ st r u s g c d n lu lg,
       reachable st
       ∧ truthyStr (Req.user r) = Some u ∧ truthyStr (Req.sessionId r) = Some s
       ∧ findOne (bySession (Some s)) st = Some g
       ∧ findByUser u st = Found c
       ∧ lineOf n (items c) = Some lu ∧ lineOf n (items g) = Some lg
       ∧ PrimFloat.eqb (price lu) (price lg) = false
       ∧ (merge r st).2 = respond 200 "Carts merged" d
       ∧ PrimFloat.ltb (totalPrice d)
           (PrimFloat.add (totalPrice c) (totalPrice g)) = true)
  ∧ (∃ st r u s g c d n lu lg,
       reachable st
       ∧ truthyStr (Req.user r) = Some u ∧ truthyStr (Req.sessionId r) = Some s
       ∧ findOne (bySession (Some s)) st = Some g
       ∧ findByUser u st = Found c
       ∧ lineOf n (items c) = Some lu ∧ lineOf n (items g) = Some lg
       ∧ PrimFloat.eqb (price lu) (price lg) = false
       ∧ (merge r st).2 = respond 200 "Carts merged" d
       ∧ PrimFloat.ltb (PrimFloat.add (totalPrice c) (totalPrice g))
           (totalPrice d) = true).
Proof.
  split_and!.
  - intros st r u s g c n lu lg Hst%reachable_wf Hu Hs Hg Hc Hlu Hlg.
    rewrite (merge_both_eq st r u s g c Hst Hu Hs Hg Hc). cbn [snd].
    eexists. split; [reflexivity|]. cbn [preSave set_items items].
    apply findOne_elem in Hg as [Hg _].
    destruct (wf_elem _ _ Hst Hg) as (_ & Hgnd & _).
    rewrite lineOf_mergeItems, Hlu, Hlg by done.
    apply lineOf_Some_name in Hlu as <-. done.
  - exists stBoth, (mergeReq alice "s1"), alice, "s1", guestDoc, userDoc.
    eexists. exists "Pen". do 2 eexists.
    split_and!; [apply reachable_stBoth | reflexivity..].
  - exists stBoth', (mergeReq alice "s1"), alice, "s1".
    do 3 eexists. exists "Pen". do 2 eexists.
    split_and!; [apply reachable_stBoth' | reflexivity..].
Qed.

Lemma merge_keeps_user_price_witness :
  ∃ d, (merge (mergeReq alice "s1") stBoth).2 = respond 200 "Carts merged" d
    ∧ lineOf "Pen" (items d) = Some (mkItem "Pen" 2%float None (1 + 3)).
Proof.
  exact (proj1 merge_keeps_user_price stBoth (mergeReq alice "s1") alice "s1"
           guestDoc userDoc "Pen" (mkItem "Pen" 2%float None 1)
           (mkItem "Pen" 5%float None 3)
           reachable_stBoth eq_refl eq_refl eq_refl eq_refl eq_refl eq_refl).
Defined.

(** ** Adding an item *)

Section AddRoute.
Implicit Types (c d : Cart) (st : Store) (r : Req.t) (u s n : string)
  (p : float) (q : Z).

Lemma truthyStr_Some o n : truthyStr o = Some n ↔ o = Some n ∧ n ≠ "".
Proof.
  unfold truthyStr. destruct o as [x|]; [|intuition congruence].
  destruct (String.eqb_spec x ""); intuition congruence.
Qed.

Lemma truthyStr_None o : truthyStr o = None ↔ o = None ∨ o = Some "".
Proof.
  unfold truthyStr. destruct o as [x|]; [|intuition congruence].
  destruct (String.eqb_spec x ""); intuition congruence.
Qed.


(** The route answers 400 exactly when [!name || !price]. *)
Lemma addItem_BadRequest_iff r st :
  code (addItem r st).2 = BadRequest ↔
  truthyStr (Req.name r) = None ∨ truthyNum (Req.price r) = None.
Proof.
  unfold addItem.
  destruct (truthyStr (Req.name r)); [|by split; [left|]].
  destruct (truthyNum (Req.price r)); [|by split; [right|]].
  destruct (lookupCart _ _ st); cbn; try destruct (save _ _ _) as [[d st']|];
    cbn; (split; [done | intros [?|?]; done]).
Qed.



End AddRoute.



(** C4.  An add whose price is the number 0 is answered 400 "Name and
    price are required", whatever the other fields and the collection:
    the guard [!name || !price] takes a zero price for a missing one. *)
Theorem addItem_rejects_zero_price st u s n img q :
  addItem (Req.mk u s (Some n) (Some 0%float) img q) st =
    (st, failure BadRequest "Name and price are required").
Proof.
  unfold addItem. cbn [Req.name Req.price].
  change (truthyNum (Some 0%float)) with (@None float).
  by destruct (truthyStr (Some n)).
Qed.

(** C5.  After a guest add for session "s1" and an add that names both
    the user id [alice] and session "s1", the collection holds a cart with
    both an owner and a session id, and two active carts for session
    "s1". *)
Theorem addItem_both_keys_breaks_identity :
  reachable stTwoKeys
  ∧ (addItem (userAdd alice "s1" "Ink" 3 1)
       (addItem (guestAdd "s1" "Pen" 2 3) emptyStore).1).1 = stTwoKeys
  ∧ (∃ c, c ∈ carts stTwoKeys ∧ user c = Some alice ∧ sessionId c = Some "s1")
  ∧ length (filter (bySession (Some "s1")) (carts stTwoKeys)) = 2%nat.
Proof.
  split_and!; [apply reachable_stTwoKeys | reflexivity | | reflexivity].
  exists (mkCart 1 (Some alice) (Some "s1") [mkItem "Ink" 3 None 1] 3 active).
  split_and!; [|done..]. right. left.
Qed.

(** ** Checkout, read and remove *)

Section OtherRoutes.
Implicit Types (c d : Cart) (st : Store) (r : Req.t).


Lemma checkout_found_eq st r c :
  wfStore st →
  lookupCart (Req.user r) (Req.sessionId r) st = Found c →
  checkout r st =
    (mkStore (updateOne (set_status ordered c) (carts st)) (nextId st),
     respond 200 "Checkout complete" (set_status ordered c)).
Proof.
  intros Hst Hc. unfold checkout. rewrite Hc.
  destruct (wf_lookup _ _ _ _ Hst Hc) as (Hv & _ & Htot).
  rewrite save_valid by done. by rewrite preSave_id.
Qed.

Lemma checkout_NotFound_iff st r :
  wfStore st →
  code (checkout r st).2 = NotFound ↔
  lookupCart (Req.user r) (Req.sessionId r) st = NoCart.
Proof.
  intros Hst. destruct (lookupCart _ _ st) as [c| |] eqn:Hc.
  - by rewrite (checkout_found_eq st r c Hst Hc).
  - unfold checkout. by rewrite Hc.
  - unfold checkout. by rewrite Hc.
Qed.

Lemma removeItem_found_eq st r c :
  wfStore st →
  lookupCart (Req.user r) (Req.sessionId r) st = Found c →
  removeItem r st =
    (mkStore
       (updateOne
          (preSave (set_items
             (filter (λ item, Some (name item) ≠ Req.name r) (items c)) c))
          (carts st))
       (nextId st),
     respond 200 "Item removed"
       (preSave (set_items
          (filter (λ item, Some (name item) ≠ Req.name r) (items c)) c))).
Proof.
  intros Hst Hc. unfold removeItem. rewrite Hc.
  rewrite save_valid; [done|].
  apply validate_set_items; [by eapply wfCart_casts, wf_lookup|].
  pose proof (wfCart_valid _ (wf_lookup _ _ _ _ Hst Hc)) as Hv.
  rewrite Forall_forall in Hv. apply Forall_forall.
  intros x [_ Hx]%list_elem_of_filter. auto.
Qed.

Lemma filter_all (Q : CartItem → Prop) `{∀ x, Decision (Q x)} (l : list CartItem) :
  Forall Q l → filter Q l = l.
Proof.
  induction 1 as [|x l Hx Hl IH]; [done|].
  by rewrite filter_cons, decide_True, IH.
Qed.

(** After checkout the key finds no cart, provided the ordered cart was
    the only active cart the filter of the key matches. *)

Lemma checkout_twice st r c :
  wfStore st →
  lookupCart (Req.user r) (Req.sessionId r) st = Found c →
  (∀ x, x ∈ carts st → status x = active →
        match truthyStr (Req.user r) with
        | Some _ => user x = Req.user r
        | None => sessionId x = Req.sessionId r
        end → x = c) →
  code (checkout r (checkout r st).1).2 = NotFound.
Proof.
  intros Hst Hc Honly.
  rewrite (checkout_found_eq st r c Hst Hc). cbn [fst].
  pose proof Hc as [Hcin Hact]%lookupCart_elem.
  destruct Hst as (Hwf & Hids & Hlt).
  apply list_elem_of_split in Hcin as (l1 & l2 & Heq).
  rewrite Heq in Hids. fold (ids (l1 ++ c :: l2)) in Hids.
  pose proof (split_fresh _ _ _ Hids) as [Hf1 Hf2].
  assert (∀ x, x ∈ l1 ++ set_status ordered c :: l2 →
               status x = active → x ∈ carts st ∧ x ≠ c) as Hrest.
  { intros x Hx Hxa. rewrite Heq.
    apply elem_of_app in Hx as [Hx|[->|Hx]%elem_of_cons]; [|done|].
    - split; [apply elem_of_app; by left|]. intros ->.
      apply Hf1. by apply list_elem_of_fmap_2.
    - split; [apply elem_of_app; right; by right|]. intros ->.
      apply Hf2. by apply list_elem_of_fmap_2. }
  unfold checkout, lookupCart. rewrite Heq. cbn [carts].
  rewrite updateOne_split by done.
  unfold lookupCart in Hc.
  destruct (truthyStr (Req.user r)) as [u|] eqn:Hu.
  - apply findByUser_Found in Hc as [Hcast _].
    apply truthyStr_Some in Hu as [Hu _].
    unfold findByUser. rewrite Hcast.
    assert (findOne (byUser (Some u))
              (mkStore (l1 ++ set_status ordered c :: l2) (nextId st)) = None) as ->; [|done].
    apply findOne_None, Forall_forall. cbn. intros x Hx [Hxu Hxa].
    destruct (Hrest x Hx Hxa) as [Hin Hne]. apply Hne, Honly; congruence.
  - assert (findOne (bySession (Req.sessionId r))
              (mkStore (l1 ++ set_status ordered c :: l2) (nextId st)) = None) as ->; [|done].
    apply findOne_None, Forall_forall. cbn. intros x Hx [Hxs Hxa].
    destruct (Hrest x Hx Hxa) as [Hin Hne]. by apply Hne, Honly.
Qed.

(** A document that is not active is out of reach of every route. *)
Lemma updateOne_other c d (l : list Cart) :
  c ∈ l → _id c ≠ _id d → c ∈ updateOne d l.
Proof.
  induction l as [|x l IH]; cbn; [done|].
  intros [->|Hin]%elem_of_cons Hne.
  - rewrite decide_False by done. left.
  - case_decide; right; auto.
Qed.

Lemma ids_inj (l : list Cart) x c :
  NoDup (ids l) → x ∈ l → c ∈ l → _id x = _id c → x = c.
Proof.
  unfold ids. induction l as [|y l IH]; cbn; [by intros _ ?%elem_of_nil|].
  intros [Hy Hl]%NoDup_cons [->|Hx]%elem_of_cons [->|Hc]%elem_of_cons Heq.
  - done.
  - destruct Hy. rewrite Heq. by apply list_elem_of_fmap_2.
  - destruct Hy. rewrite <- Heq. by apply list_elem_of_fmap_2.
  - auto.
Qed.

Lemma save_keeps x x0 st d st' c :
  wfStore st →
  x0 ∈ carts st → status x0 = active → _id x = _id x0 →
  c ∈ carts st → status c ≠ active →
  save false x st = Some (d, st') → c ∈ carts st'.
Proof.
  intros (_ & Hids & _) Hx0 Hact Hid Hc Hst (_ & -> & ->)%save_Some. cbn.
  apply updateOne_other; [done|]. cbn. rewrite Hid. intros Heq.
  assert (c = x0) as -> by by eapply ids_inj. done.
Qed.

Lemma inactive_stays o r st c :
  wfStore st → c ∈ carts st → status c ≠ active →
  c ∈ carts (handle o r st).1.
Proof.
  intros Hst Hc Hna. destruct o; cbn [handle].
  - unfold addItem.
    destruct (truthyStr (Req.name r)); [|done].
    destruct (truthyNum (Req.price r)); [|done].
    destruct (lookupCart _ _ st) as [x| |] eqn:Hx; [| |done].
    + apply lookupCart_elem in Hx as [Hx Hact].
      destruct (save _ _ _) as [[d st']|] eqn:Hsave; [|done]. cbn.
      by refine (save_keeps _ x _ _ _ _ Hst Hx Hact _ Hc Hna Hsave).
    + destruct (save _ _ _) as [[d st']|] eqn:Hsave; [|done]. cbn.
      apply save_Some in Hsave as (_ & -> & ->). cbn.
      apply elem_of_app. by left.
  - by rewrite getCart_same.
  - unfold updateQuantity.
    destruct (lookupCart _ _ st) as [x| |] eqn:Hx; [|done..].
    apply lookupCart_elem in Hx as [Hx Hact].
    destruct (list_find _ _) as [[i y]|]; [|done].
    destruct (Req.quantity r); [|done].
    destruct (save _ _ _) as [[d st']|] eqn:Hsave; [|done]. cbn.
    by refine (save_keeps _ x _ _ _ _ Hst Hx Hact _ Hc Hna Hsave).
  - unfold removeItem.
    destruct (lookupCart _ _ st) as [x| |] eqn:Hx; [|done..].
    apply lookupCart_elem in Hx as [Hx Hact].
    destruct (save _ _ _) as [[d st']|] eqn:Hsave; [|done]. cbn.
    by refine (save_keeps _ x _ _ _ _ Hst Hx Hact _ Hc Hna Hsave).
  - unfold clear.
    destruct (lookupCart _ _ st) as [x| |] eqn:Hx; [|done..].
    apply lookupCart_elem in Hx as [Hx Hact].
    destruct (save _ _ _) as [[d st']|] eqn:Hsave; [|done]. cbn.
    by refine (save_keeps _ x _ _ _ _ Hst Hx Hact _ Hc Hna Hsave).
  - unfold merge.
    destruct (truthyStr (Req.user r)); [|done].
    destruct (truthyStr (Req.sessionId r)); [|done].
    destruct (findByUser _ st) as [x| |] eqn:Hx; [| |done];
      (destruct (findOne (bySession _) st) as [g|] eqn:Hg; [|done]);
      apply findOne_elem in Hg as [Hg [_ Hgact]].
    + apply findByUser_elem in Hx as [Hx [_ Hact]].
      destruct (save _ _ _) as [[d st']|] eqn:Hsave; [|done]. cbn.
      apply deleteOne_other.
      * by refine (save_keeps _ x _ _ _ _ Hst Hx Hact _ Hc Hna Hsave).
      * intros Heq. destruct Hst as (_ & Hids & _).
        assert (c = g) as -> by by eapply ids_inj. done.
    + destruct (save _ _ _) as [[d st']|] eqn:Hsave; [|done]. cbn.
      by refine (save_keeps _ g _ _ _ _ Hst Hg Hgact _ Hc Hna Hsave).
  - unfold checkout.
    destruct (lookupCart _ _ st) as [x| |] eqn:Hx; [|done..].
    apply lookupCart_elem in Hx as [Hx Hact].
    destruct (save _ _ _) as [[d st']|] eqn:Hsave; [|done]. cbn.
    by refine (save_keeps _ x _ _ _ _ Hst Hx Hact _ Hc Hna Hsave).
Qed.
End OtherRoutes.

(** C7.  After a guest add for session "s1" and an add that names both
    the user id [alice] and session "s1", checkout for session "s1" orders the
    guest cart, and a second checkout for the same session is answered
    200 as well: it finds, and orders, the other active cart that carries
    the session id. *)
Theorem second_checkout_succeeds :
  reachable stTwoKeys
  ∧ (∃ a, (checkout (guestKey "s1") stTwoKeys).2
            = respond 200 "Checkout complete" a
        ∧ _id a = 0%nat ∧ status a = ordered)
  ∧ (∃ b, (checkout (guestKey "s1") (checkout (guestKey "s1") stTwoKeys).1).2
            = respond 200 "Checkout complete" b
        ∧ _id b = 1%nat ∧ status b = ordered)
  ∧ code (checkout (guestKey "s1") (checkout (guestKey "s1") stTwoKeys).1).2
      ≠ NotFound.
Proof.
  split_and!; [apply reachable_stTwoKeys | | | by vm_compute].
  - eexists. split_and!; reflexivity.
  - eexists. split_and!; reflexivity.
Qed.

(** C8, as the code has it.  Reading a cart never writes and is never
    answered 404.  When the lookup runs, the answer is 200 with the active
    cart of the key when there is one, and with the view
    [{ items: [], totalPrice: 0 }] when there is none.  When the request
    names a user by a non-empty string that is not an ObjectId, and only
    then, the lookup throws and the answer is 500 "Failed to fetch cart". *)
Theorem getCart_never_NotFound r st :
  (getCart r st).1 = st
  ∧ code (getCart r st).2 ≠ NotFound
  ∧ (∀ c, lookupCart (Req.user r) (Req.sessionId r) st = Found c →
          (getCart r st).2 = mkRes 200 true None (Some (CartDoc c)))
  ∧ (lookupCart (Req.user r) (Req.sessionId r) st = NoCart →
     (getCart r st).2 = mkRes 200 true None (Some (View [] 0)))
  ∧ (lookupCart (Req.user r) (Req.sessionId r) st = CastError →
     (getCart r st).2 = failure ServerError "Failed to fetch cart")
  ∧ (lookupCart (Req.user r) (Req.sessionId r) st = CastError ↔
     ∃ uid, truthyStr (Req.user r) = Some uid ∧ isObjectId uid = false).
Proof.
  unfold getCart. split_and!.
  - by destruct (lookupCart _ _ st).
  - by destruct (lookupCart _ _ st).
  - by intros c ->.
  - by intros ->.
  - by intros ->.
  - apply lookupCart_CastError.
Qed.

Lemma getCart_never_NotFound_witness :
  (getCart (guestKey "unknown") stGuest).2 =
    mkRes 200 true None (Some (View [] 0))
  ∧ (getCart (guestKey "s1") stGuest).2 =
      mkRes 200 true None (Some (CartDoc guestDoc))
  ∧ (getCart (userKey "guest-7") stGuest).2 =
      failure ServerError "Failed to fetch cart".
Proof.
  split_and!.
  - apply (getCart_never_NotFound (guestKey "unknown") stGuest). reflexivity.
  - apply (getCart_never_NotFound (guestKey "s1") stGuest). reflexivity.
  - apply (getCart_never_NotFound (userKey "guest-7") stGuest). reflexivity.
Defined.

(** C8, the sentence of the specification refuted: on the empty
    collection, GET /cart?user=u1 is answered 500 without success, not
    with the empty view. *)
Lemma getCart_fails_on_uncastable_user :
  getCart (userKey "u1") emptyStore =
    (emptyStore, failure ServerError "Failed to fetch cart")
  ∧ success (getCart (userKey "u1") emptyStore).2 = false
  ∧ data (getCart (userKey "u1") emptyStore).2 = None.
Proof. by vm_compute. Qed.



(** * Further properties of the routes *)

(** ** Lines and writes, continued *)

Section MoreLists.
Implicit Types (l : list CartItem) (n m : string) (x : CartItem) (c d : Cart).

Lemma lineOf_Some_elem_of n l y : lineOf n l = Some y → y ∈ l.
Proof.
  induction l as [|x l IH]; [done|].
  rewrite lineOf_cons. case_decide; intros ?; simplify_eq; [left | right; auto].
Qed.

Lemma lineOf_find n l y :
  lineOf n l = Some y → ∃ i, list_find (λ item, name item = n) l = Some (i, y).
Proof.
  unfold lineOf. destruct (list_find _ l) as [[i z]|]; [|done].
  intros ?; simplify_eq/=. by exists i.
Qed.

Lemma find_by_name (o : option string) n l :
  o = Some n →
  list_find (λ item, Some (name item) = o) l =
  list_find (λ item, name item = n) l.
Proof. intros ->. apply list_find_ext. intros x. split; congruence. Qed.


Lemma filter_by_name (o : option string) n l :
  o = Some n →
  filter (λ item, Some (name item) ≠ o) l = filter (λ item, name item ≠ n) l.
Proof. intros ->. apply list_filter_iff. intros x. split; congruence. Qed.

Lemma updateOne_elem_inv c d (cs : list Cart) :
  c ∈ updateOne d cs → c = d ∨ c ∈ cs.
Proof.
  induction cs as [|y cs IH]; cbn; [by right|].
  case_decide.
  - intros [->|Hc]%elem_of_cons; [by left | right; by right].
  - intros [->|Hc]%elem_of_cons; [right; left|].
    destruct (IH Hc); [by left | right; by right].
Qed.

(** A document rewritten in place under the same keys is found again. *)
Lemma find_after_update (P : Cart → Prop) `{∀ y : Cart, Decision (P y)} st c d :
  NoDup (ids (carts st)) →
  findOne P st = Some c → _id d = _id c → P d →
  findOne P (mkStore (updateOne d (carts st)) (nextId st)) = Some d.
Proof.
  intros Hids (l1 & l2 & Heq & _ & Hl1)%findOne_Some Hid Hd.
  rewrite Heq in Hids. apply split_fresh in Hids as [Hfresh _].
  apply findOne_Some. cbn [carts]. rewrite Heq, updateOne_split by done.
  by exists l1, l2.
Qed.

Lemma lookup_after_update u s st c d :
  wfStore st →
  lookupCart u s st = Found c →
  _id d = _id c → user d = user c → sessionId d = sessionId c → status d = status c →
  lookupCart u s (mkStore (updateOne d (carts st)) (nextId st)) = Found d.
Proof.
  intros (_ & Hids & _) Hc Hid Hu Hs Hst. unfold lookupCart in *.
  destruct (truthyStr u).
  - apply findByUser_Found in Hc as [Hcast Hc].
    apply findByUser_Found. split; [done|].
    pose proof Hc as [_ [? ?]]%findOne_elem.
    apply (find_after_update _ st c d); [done..|]. split; congruence.
  - apply found_Found in Hc. apply found_Found.
    pose proof Hc as [_ [? ?]]%findOne_elem.
    apply (find_after_update _ st c d); [done..|]. split; congruence.
Qed.
End MoreLists.

(** ** Totals in exact arithmetic *)

Section ExactTotals.
Implicit Types (l us gs : list CartItem) (n m : string) (x y g : CartItem)
  (c d : Cart).

Lemma qsum_cons x l : qsum (x :: l) = (lineQ x + qsum l)%Q.
Proof. reflexivity. Qed.

Lemma qsum_app l1 l2 : (qsum (l1 ++ l2) == qsum l1 + qsum l2)%Q.
Proof.
  induction l1 as [|x l1 IH].
  - change (qsum ([] ++ l2)) with (qsum l2). change (qsum []) with 0%Q. ring.
  - rewrite <- app_comm_cons, !qsum_cons, IH. ring.
Qed.


Lemma qsum_remove n l y :
  NoDup (names l) → lineOf n l = Some y →
  (qsum (filter (λ item, name item ≠ n) l) == qsum l - lineQ y)%Q.
Proof.
  unfold names. induction l as [|x l IH]; [done|].
  rewrite fmap_cons, NoDup_cons, lineOf_cons. intros [Hx Hl].
  rewrite filter_cons, qsum_cons. destruct (decide (name x = n)) as [<-|Hne].
  - intros ?; simplify_eq. rewrite decide_False by (intros ?; done).
    rewrite filter_all; [ring|].
    apply Forall_forall. intros z Hz Heq. apply Hx. rewrite <- Heq.
    by apply list_elem_of_fmap_2.
  - intros Hy. rewrite decide_True by done.
    rewrite qsum_cons, (IH Hl Hy). ring.
Qed.

Lemma noRounding_finite l acc : noRounding acc l = true → finitePrices l.
Proof.
  revert acc. induction l as [|x l IH]; intros acc Hno; [constructor|].
  cbn [noRounding] in Hno. apply andb_true_iff in Hno as [Hstep Hrest].
  constructor; [|by eapply IH].
  destruct (F2Q acc); [|done]. by destruct (F2Q (price x)).
Qed.

Lemma finite_priceQ f : is_Some (F2Q f) → F2Q f = Some (priceQ f).
Proof. intros [p Hp]. unfold priceQ. by rewrite Hp. Qed.

Lemma exactSum_qsum l : finitePrices l → exactSum l = Some (qsum l).
Proof.
  induction 1 as [|x l Hx Hl IH]; [done|].
  cbn [exactSum]. by rewrite (finite_priceQ _ Hx), IH.
Qed.

Lemma cartTotal_qsum l :
  noRounding 0 l = true → ∃ t, F2Q (cartTotal l) = Some t ∧ (t == qsum l)%Q.
Proof.
  intros Hno. destruct (cartTotal_exact l Hno) as (t & s & Ht & Hs & Heq).
  rewrite (exactSum_qsum l (noRounding_finite _ _ Hno)) in Hs.
  exists t. split; [done|]. by simplify_eq.
Qed.

Lemma finite_lineOf n l y : finitePrices l → lineOf n l = Some y → is_Some (F2Q (price y)).
Proof.
  intros Hl Hy%lineOf_Some_elem_of. unfold finitePrices in Hl.
  rewrite Forall_forall in Hl. auto.
Qed.







End ExactTotals.


(** ** Changing a quantity *)





(** X3.  On a cart that holds the line, an update whose quantity is
    missing or below 1 is answered 500 and writes nothing: a line cannot
    be emptied or removed through this route. *)
Theorem updateQuantity_rejects_below_one st r n c old :
  reachable st →
  Req.name r = Some n →
  lookupCart (Req.user r) (Req.sessionId r) st = Found c →
  lineOf n (items c) = Some old →
  match Req.quantity r with Some q => q < 1 | None => True end →
  updateQuantity r st = (st, failure ServerError "Failed to update item").
Proof.
  intros Hst%reachable_wf Hn Hc Hold Hq.
  destruct (lineOf_find _ _ _ Hold) as [i Hfind].
  unfold updateQuantity. rewrite Hc, (find_by_name _ n _ Hn), Hfind.
  destruct (Req.quantity r) as [q|]; [|done].
  assert (validate (set_items (alter (set_quantity q) i (items c)) c) = false) as Hbad.
  { apply not_true_is_false. intros Hv%validate_Forall. cbn in Hv.
    assert (lineOf n (alter (set_quantity q) i (items c)) = Some (set_quantity q old))
      as Hline.
    { by rewrite (lineOf_alter_found _ n n _ i old (name_set_quantity q) Hfind),
        decide_True. }
    apply lineOf_Some_elem_of in Hline.
    rewrite Forall_forall in Hv. apply Hv in Hline.
    apply validItem_spec in Hline as [_ Hge]. cbn in Hge. lia. }
  unfold save. by rewrite Hbad.
Qed.

Lemma updateQuantity_rejects_below_one_witness :
  updateQuantity (Req.mk None (Some "s1") (Some "Pen") None None (Some 0)) stGuest
    = (stGuest, failure ServerError "Failed to update item").
Proof.
  apply (updateQuantity_rejects_below_one stGuest
           (Req.mk None (Some "s1") (Some "Pen") None None (Some 0))
           "Pen" guestDoc (mkItem "Pen" 5 None 3)
           reachable_stGuest eq_refl eq_refl eq_refl).
  cbn. lia.
Defined.

(** ** Clearing a cart *)



(** ** Merge: guard, missing guest cart, repetition *)

(** X5.  Merge is answered 400 exactly when the user or the session id is
    missing or empty, and then writes nothing. *)
Theorem merge_requires_both_keys st r :
  (code (merge r st).2 = BadRequest ↔
   truthyStr (Req.user r) = None ∨ truthyStr (Req.sessionId r) = None)
  ∧ (code (merge r st).2 = BadRequest → (merge r st).1 = st).
Proof.
  unfold merge.
  destruct (truthyStr (Req.user r)) as [u|]; [|by split; [split; [left|]|]].
  destruct (truthyStr (Req.sessionId r)) as [s|]; [|by split; [split; [right|]|]].
  assert (¬ (Some u = None ∨ Some s = None)) as Hno by (intros [?|?]; done).
  destruct (findByUser u st); [| |by split];
    (destruct (findOne (bySession _) st); [|by split]);
    destruct (save _ _ _) as [[d st']|]; cbn; by split.
Qed.

Lemma merge_requires_both_keys_witness :
  (merge (Req.mk (Some alice) (Some "") None None None None) stBoth).1 = stBoth.
Proof.
  destruct (merge_requires_both_keys stBoth
              (Req.mk (Some alice) (Some "") None None None None)) as [_ Hsame].
  apply Hsame. reflexivity.
Defined.

(** X6.  Merge is not repeated by accident: when the guest cart is the
    only active cart of the session and the user id is an ObjectId, merge
    is answered 200 (the cart is merged or re-owned), and the same request
    sent again is answered 200 "No guest cart", without a cart in the
    answer and without writing.  With a user id that is not an ObjectId
    the user lookup throws: the answer is 500 and nothing is written. *)
Theorem merge_repeated_is_noop st r u s g :
  reachable st →
  truthyStr (Req.user r) = Some u → truthyStr (Req.sessionId r) = Some s →
  findOne (bySession (Some s)) st = Some g →
  (∀ x, x ∈ carts st → bySession (Some s) x → x = g) →
  (isObjectId u = true →
   code (merge r st).2 = 200%nat
   ∧ merge r (merge r st).1 =
       ((merge r st).1, mkRes 200 true (Some "No guest cart") None))
  ∧ (isObjectId u = false →
     merge r st = (st, failure ServerError "Failed to merge cart")).
Proof.
  intros Hst%reachable_wf Hu Hs Hg Honly.
  split; [intros Hcast|]; cycle 1.
  { intros Hcast. unfold merge.
    by rewrite Hu, Hs, (proj2 (findByUser_CastError u st) Hcast). }
  pose proof Hg as [Hgin [Hgs Hgact]]%findOne_elem.
  pose proof Hst as (_ & Hids & _).
  assert (∀ st', findOne (bySession (Some s)) st' = None →
            merge r st' = (st', mkRes 200 true (Some "No guest cart") None)) as Hnone.
  { intros st' Hst'. unfold merge. rewrite Hu, Hs, Hst'.
    unfold findByUser. rewrite Hcast.
    by destruct (findOne (byUser (Some u)) st'). }
  destruct (findOne (byUser (Some u)) st) as [c|] eqn:Hc.
  - rewrite (merge_both_eq st r u s g c Hst Hu Hs Hg
               (proj2 (findByUser_Found u st c) (conj Hcast Hc))).
    cbn [fst snd code respond].
    split; [done|]. apply Hnone, findOne_None, Forall_forall. cbn [carts].
    intros x Hx [Hxs Hxa].
    assert (_id x ≠ _id g) as Hne.
    { intros Heq. apply (deleteOne_gone (_id g) (updateOne
        (preSave (set_items (mergeItems (items c) (items g)) c)) (carts st))).
      - by rewrite ids_updateOne.
      - unfold ids. apply list_elem_of_fmap. exists x. by split. }
    apply deleteOne_elem, updateOne_elem_inv in Hx as [->|Hx].
    + pose proof Hc as [Hcin _]%findOne_elem.
      apply Hne. cbn. f_equal. by apply Honly.
    + apply Hne. f_equal. by apply Honly.
  - rewrite (merge_rename_eq st r u s g Hst Hu Hs Hg
               (proj2 (findByUser_NoCart u st) (conj Hcast Hc))).
    cbn [fst snd code respond].
    split; [done|]. apply Hnone, findOne_None, Forall_forall. cbn [carts].
    intros x Hx [Hxs Hxa].
    apply list_elem_of_split in Hgin as (l1 & l2 & Heq).
    rewrite Heq in Hx, Hids.
    pose proof (split_fresh _ _ _ Hids) as [Hf1 Hf2].
    rewrite updateOne_split in Hx by done.
    assert (x ∈ carts st → x = g) as Hxg by (intros ?; by apply Honly).
    rewrite Heq in Hxg.
    apply elem_of_app in Hx as [Hx|[->|Hx]%elem_of_cons]; [|done|].
    + apply Hf1. rewrite <- Hxg; [unfold ids; by apply list_elem_of_fmap_2|].
      apply elem_of_app. by left.
    + apply Hf2. rewrite <- Hxg; [unfold ids; by apply list_elem_of_fmap_2|].
      apply elem_of_app. right. by right.
Qed.

Lemma merge_repeated_is_noop_witness :
  code (merge (mergeReq alice "s1") stBoth).2 = 200%nat
  ∧ merge (mergeReq alice "s1") (merge (mergeReq alice "s1") stBoth).1 =
      ((merge (mergeReq alice "s1") stBoth).1,
       mkRes 200 true (Some "No guest cart") None).
Proof.
  apply (merge_repeated_is_noop stBoth (mergeReq alice "s1") alice "s1" guestDoc
           reachable_stBoth eq_refl eq_refl eq_refl); [|reflexivity].
  intros x Hx [Hs _].
  apply elem_of_cons in Hx as [->|Hx]; [reflexivity|].
  apply elem_of_cons in Hx as [->|Hx]; [discriminate Hs|].
  by apply elem_of_nil in Hx.
Defined.

(** ** What a request can and cannot touch *)

(** X7.  A request that is not answered with success writes nothing: every
    400, 404 and 500 leaves the collection as it was. *)
Theorem failure_writes_nothing o r st :
  success (handle o r st).2 = false → (handle o r st).1 = st.
Proof.
  destruct o; cbn [handle].
  - unfold addItem.
    destruct (truthyStr (Req.name r)); [|done].
    destruct (truthyNum (Req.price r)); [|done].
    destruct (lookupCart _ _ st); [| |done];
      by destruct (save _ _ _) as [[d st']|].
  - by rewrite getCart_same.
  - unfold updateQuantity.
    destruct (lookupCart _ _ st); [|done..].
    destruct (list_find _ _) as [[i y]|]; [|done].
    destruct (Req.quantity r); [|done].
    by destruct (save _ _ _) as [[d st']|].
  - unfold removeItem.
    destruct (lookupCart _ _ st); [|done..].
    by destruct (save _ _ _) as [[d st']|].
  - unfold clear.
    destruct (lookupCart _ _ st); [|done..].
    by destruct (save _ _ _) as [[d st']|].
  - unfold merge.
    destruct (truthyStr (Req.user r)); [|done].
    destruct (truthyStr (Req.sessionId r)); [|done].
    destruct (findByUser _ st); [| |done];
      (destruct (findOne (bySession _) st); [|done]);
      by destruct (save _ _ _) as [[d st']|].
  - unfold checkout.
    destruct (lookupCart _ _ st); [|done..].
    by destruct (save _ _ _) as [[d st']|].
Qed.

Lemma failure_writes_nothing_witness :
  (handle AddItem (guestAdd "s1" "Cap" 4 0) stGuest).1 = stGuest
  ∧ (handle Checkout (guestKey "nobody") stGuest).1 = stGuest.
Proof.
  split.
  - apply (failure_writes_nothing AddItem (guestAdd "s1" "Cap" 4 0) stGuest).
    reflexivity.
  - apply (failure_writes_nothing Checkout (guestKey "nobody") stGuest).
    reflexivity.
Defined.

Section Frame.
Implicit Types (c d x : Cart) (st : Store) (r : Req.t).

Lemma find_after_insert (P : Cart → Prop) `{∀ y : Cart, Decision (P y)} st d n :
  findOne P st = None → P d →
  findOne P (mkStore (carts st ++ [d]) n) = Some d.
Proof.
  intros Hnone%findOne_None Hd. apply findOne_Some. by exists (carts st), [].
Qed.

Lemma save_frame x x0 st d st' c :
  wfStore st →
  x0 ∈ carts st → _id x = _id x0 → c ∈ carts st → c ≠ x0 →
  save false x st = Some (d, st') → c ∈ carts st'.
Proof.
  intros (_ & Hids & _) Hx0 Hid Hc Hne (_ & -> & ->)%save_Some. cbn.
  apply updateOne_other; [done|]. cbn. rewrite Hid. intros Heq.
  apply Hne. by eapply ids_inj.
Qed.

Lemma lookupCart_cases u s st x :
  lookupCart u s st = Found x →
  findOne (byUser u) st = Some x ∨ findOne (bySession s) st = Some x.
Proof.
  unfold lookupCart. destruct (truthyStr u) as [uid|] eqn:Hu.
  - apply truthyStr_Some in Hu as [-> _]. intros [_ ?]%findByUser_Found. by left.
  - intros ?%found_Found. by right.
Qed.


(** A cart inserted for a request is what the request's lookup finds. *)
Lemma lookup_after_insert u s st d n :
  lookupCart u s st = NoCart →
  user d = u → sessionId d = s → status d = active →
  lookupCart u s (mkStore (carts st ++ [d]) n) = Found d.
Proof.
  unfold lookupCart. intros Hc Hu Hs Hact.
  destruct (truthyStr u) as [uid|] eqn:Huid.
  - apply truthyStr_Some in Huid as [-> _].
    apply findByUser_NoCart in Hc as [Hcast Hc].
    apply findByUser_Found. split; [done|]. by apply find_after_insert.
  - apply found_NoCart in Hc. apply found_Found. by apply find_after_insert.
Qed.
End Frame.

(** X8.  After a successful add, a read with the same keys returns the very
    cart the add answered with. *)
Theorem addItem_then_getCart st r d :
  reachable st →
  (addItem r st).2 = respond 201 "Item added" d →
  data (getCart r (addItem r st).1).2 = Some (CartDoc d).
Proof.
  intros Hst%reachable_wf. unfold getCart. cbn [snd data]. unfold addItem.
  destruct (truthyStr (Req.name r)) as [n|]; [|done].
  destruct (truthyNum (Req.price r)) as [p|]; [|done].
  destruct (lookupCart _ _ st) as [c| |] eqn:Hc; [| |done].
  - destruct (save _ _ _) as [[d' st']|] eqn:Hsave; [|done]. cbn.
    intros ?; simplify_eq. apply save_Some in Hsave as (_ & -> & ->).
    by rewrite (lookup_after_update _ _ st c _ Hst Hc).
  - destruct (save _ _ _) as [[d' st']|] eqn:Hsave; [|done]. cbn.
    intros ?; simplify_eq. apply save_Some in Hsave as (_ & -> & ->).
    by rewrite (lookup_after_insert _ _ st _ _ Hc).
Qed.

Lemma addItem_then_getCart_witness :
  ∃ d, (addItem (ownerAdd bob "Cap" 4 2) stGuest).2 = respond 201 "Item added" d
    ∧ data (getCart (ownerAdd bob "Cap" 4 2)
              (addItem (ownerAdd bob "Cap" 4 2) stGuest).1).2 = Some (CartDoc d).
Proof.
  eexists. split; [reflexivity|].
  apply (addItem_then_getCart stGuest (ownerAdd bob "Cap" 4 2) _ reachable_stGuest).
  reflexivity.
Defined.

(** X9.  A request changes no cart other than the first active cart of its
    user and the first active cart of its session id: every other stored
    document is still stored, unchanged, after the request. *)
Theorem other_carts_untouched o r st c :
  reachable st →
  c ∈ carts st →
  findOne (byUser (Req.user r)) st ≠ Some c →
  findOne (bySession (Req.sessionId r)) st ≠ Some c →
  c ∈ carts (handle o r st).1.
Proof.
  intros Hst%reachable_wf Hc Hnu Hns.
  assert (∀ x, lookupCart (Req.user r) (Req.sessionId r) st = Found x → c ≠ x) as Hlk.
  { intros x Hx ->.
    by destruct (lookupCart_cases (Req.user r) (Req.sessionId r) st x Hx). }
  destruct o; cbn [handle].
  - unfold addItem.
    destruct (truthyStr (Req.name r)); [|done].
    destruct (truthyNum (Req.price r)); [|done].
    destruct (lookupCart _ _ st) as [x| |] eqn:Hx; [| |done].
    + pose proof Hx as [Hxin _]%lookupCart_elem.
      destruct (save _ _ _) as [[d st']|] eqn:Hsave; [|done]. cbn.
      by refine (save_frame _ x _ _ _ _ Hst Hxin _ Hc (Hlk x eq_refl) Hsave).
    + destruct (save _ _ _) as [[d st']|] eqn:Hsave; [|done]. cbn.
      apply save_Some in Hsave as (_ & -> & ->). cbn.
      apply elem_of_app. by left.
  - by rewrite getCart_same.
  - unfold updateQuantity.
    destruct (lookupCart _ _ st) as [x| |] eqn:Hx; [|done..].
    pose proof Hx as [Hxin _]%lookupCart_elem.
    destruct (list_find _ _) as [[i y]|]; [|done].
    destruct (Req.quantity r); [|done].
    destruct (save _ _ _) as [[d st']|] eqn:Hsave; [|done]. cbn.
    by refine (save_frame _ x _ _ _ _ Hst Hxin _ Hc (Hlk x eq_refl) Hsave).
  - unfold removeItem.
    destruct (lookupCart _ _ st) as [x| |] eqn:Hx; [|done..].
    pose proof Hx as [Hxin _]%lookupCart_elem.
    destruct (save _ _ _) as [[d st']|] eqn:Hsave; [|done]. cbn.
    by refine (save_frame _ x _ _ _ _ Hst Hxin _ Hc (Hlk x eq_refl) Hsave).
  - unfold clear.
    destruct (lookupCart _ _ st) as [x| |] eqn:Hx; [|done..].
    pose proof Hx as [Hxin _]%lookupCart_elem.
    destruct (save _ _ _) as [[d st']|] eqn:Hsave; [|done]. cbn.
    by refine (save_frame _ x _ _ _ _ Hst Hxin _ Hc (Hlk x eq_refl) Hsave).
  - unfold merge.
    destruct (truthyStr (Req.user r)) as [u|] eqn:Hu; [|done].
    destruct (truthyStr (Req.sessionId r)) as [s|] eqn:Hs; [|done].
    apply truthyStr_Some in Hu as [Hu _]. apply truthyStr_Some in Hs as [Hs _].
    rewrite Hu in Hnu. rewrite Hs in Hns.
    destruct (findByUser u st) as [x| |] eqn:Hx; [| |done];
      (destruct (findOne (bySession _) st) as [g|] eqn:Hg; [|done]);
      pose proof Hg as [Hgin _]%findOne_elem;
      (assert (c ≠ g) as Hcg by (intros ->; done)).
    + apply findByUser_Found in Hx as [_ Hx].
      pose proof Hx as [Hxin _]%findOne_elem.
      assert (c ≠ x) as Hcx by (intros ->; done).
      destruct (save _ _ _) as [[d st']|] eqn:Hsave; [|done]. cbn.
      apply deleteOne_other.
      * by refine (save_frame _ x _ _ _ _ Hst Hxin _ Hc Hcx Hsave).
      * intros Heq. destruct Hst as (_ & Hids & _).
        apply Hcg. by eapply ids_inj.
    + destruct (save _ _ _) as [[d st']|] eqn:Hsave; [|done]. cbn.
      by refine (save_frame _ g _ _ _ _ Hst Hgin _ Hc Hcg Hsave).
  - unfold checkout.
    destruct (lookupCart _ _ st) as [x| |] eqn:Hx; [|done..].
    pose proof Hx as [Hxin _]%lookupCart_elem.
    destruct (save _ _ _) as [[d st']|] eqn:Hsave; [|done]. cbn.
    by refine (save_frame _ x _ _ _ _ Hst Hxin _ Hc (Hlk x eq_refl) Hsave).
Qed.

Lemma other_carts_untouched_witness :
  userDoc ∈ carts (handle Clear (guestKey "s1") stBoth).1.
Proof.
  apply (other_carts_untouched Clear (guestKey "s1") stBoth userDoc
           reachable_stBoth).
  - right. left.
  - discriminate.
  - discriminate.
Defined.

(** ** Removing and merging lines *)



(** X11.  Removing a name the cart holds takes exactly that one line out:
    the cart has one line fewer and no line of that name, and every line
    of another name is the line the cart held.  When neither the old nor
    the new total is rounded, the total has dropped by the line's price
    times its quantity. *)
Theorem removeItem_takes_one_line st r n c old :
  reachable st →
  Req.name r = Some n →
  lookupCart (Req.user r) (Req.sessionId r) st = Found c →
  lineOf n (items c) = Some old →
  ∃ d, (removeItem r st).2 = respond 200 "Item removed" d
    ∧ lineOf n (items d) = None
    ∧ S (length (items d)) = length (items c)
    ∧ (∀ m, m ≠ n → lineOf m (items d) = lineOf m (items c))
    ∧ (noRounding 0 (items c) = true → noRounding 0 (items d) = true →
       ∃ tc td po,
         F2Q (totalPrice c) = Some tc ∧ F2Q (totalPrice d) = Some td
         ∧ F2Q (price old) = Some po
         ∧ (td == tc - po * inject_Z (quantity old))%Q).
Proof.
  intros Hst%reachable_wf Hn Hc Hold.
  rewrite (removeItem_found_eq st r c Hst Hc). cbn [snd].
  eexists. split; [reflexivity|]. cbn [preSave set_items items totalPrice].
  destruct (wf_lookup _ _ _ _ Hst Hc) as (_ & Hnd & Htot).
  rewrite (filter_by_name _ n _ Hn). split_and!.
  - apply lineOf_None. unfold names.
    intros (x & Hx & [Hne _]%list_elem_of_filter)%list_elem_of_fmap. done.
  - clear Htot. revert Hnd Hold. unfold names.
    induction (items c) as [|x l IH]; [done|].
    rewrite fmap_cons, NoDup_cons, lineOf_cons, filter_cons. intros [Hx Hl].
    destruct (decide (name x = n)) as [<-|Hne].
    + intros _. rewrite decide_False by (intros ?; done). cbn. f_equal.
      rewrite filter_all; [done|].
      apply Forall_forall. intros z Hz Heq. apply Hx. rewrite <- Heq.
      by apply list_elem_of_fmap_2.
    + intros Hy. rewrite decide_True by done. cbn. f_equal. by apply IH.
  - intros m Hm. clear Htot Hnd Hold.
    induction (items c) as [|x l IH]; [done|].
    rewrite filter_cons. destruct (decide (name x ≠ n)) as [Hx|Hx].
    + rewrite !lineOf_cons. by case_decide.
    + apply dec_stable in Hx. rewrite IH, lineOf_cons.
      rewrite decide_False by congruence. done.
  - intros Hnc Hnd'.
    destruct (cartTotal_qsum _ Hnc) as (tc & Htc & Hqc).
    destruct (cartTotal_qsum _ Hnd') as (td & Htd & Hqd).
    exists tc, td, (priceQ (price old)). split_and!.
    + by rewrite Htot.
    + done.
    + apply finite_priceQ, (finite_lineOf n (items c)); [|done].
      by eapply noRounding_finite.
    + rewrite Hqd, Hqc, (qsum_remove n _ old Hnd Hold). unfold lineQ. ring.
Qed.

Lemma removeItem_takes_one_line_witness :
  ∃ d, (removeItem (removeReq "s1" "Pen") stGuest).2 = respond 200 "Item removed" d
    ∧ lineOf "Pen" (items d) = None
    ∧ S (length (items d)) = 2%nat.
Proof.
  destruct (removeItem_takes_one_line stGuest (removeReq "s1" "Pen") "Pen" guestDoc
              (mkItem "Pen" 5 None 3) reachable_stGuest eq_refl eq_refl eq_refl)
    as (d & Hres & Hnone & Hlen & _).
  exists d. split_and!; assumption.
Defined.

Section MergeTotals.
Implicit Types (us gs : list CartItem) (g : CartItem).

Lemma mergeItems_disjoint us gs :
  NoDup (names gs) →
  (∀ m, m ∈ names gs → m ∉ names us) →
  mergeItems us gs = us ++ gs.
Proof.
  unfold mergeItems, names. revert us.
  induction gs as [|g gs IH]; intros us Hnd Hdis; cbn [foldl].
  - by rewrite app_nil_r.
  - rewrite fmap_cons in Hnd, Hdis. apply NoDup_cons in Hnd as [Hg Hgs].
    assert (mergeLine us g = us ++ [g]) as ->.
    { unfold mergeLine.
      destruct (list_find _ us) as [[i y]|] eqn:Hfind; [|done].
      destruct (Hdis (name g)); [left|].
      apply lineOf_is_Some. rewrite (list_find_lineOf _ _ _ _ Hfind). by eexists. }
    rewrite IH; [by rewrite <- app_assoc | done |].
    intros m Hm. rewrite fmap_app. apply not_elem_of_app. split.
    + apply Hdis. by right.
    + cbn. intros ->%list_elem_of_singleton. done.
Qed.
End MergeTotals.

(** X12.  When the guest cart and the user cart share no name, merge
    appends the guest lines, in order, after the user lines.  In
    particular a guest cart without lines leaves the user cart as it
    was.  When none of the three totals is rounded, the merged total is
    the sum of the two totals. *)
Theorem merge_disjoint_carts st r u s g c :
  reachable st →
  truthyStr (Req.user r) = Some u → truthyStr (Req.sessionId r) = Some s →
  findOne (bySession (Some s)) st = Some g →
  findByUser u st = Found c →
  (∀ m, m ∈ names (items g) → m ∉ names (items c)) →
  ∃ d, (merge r st).2 = respond 200 "Carts merged" d
    ∧ items d = items c ++ items g
    ∧ (items g = [] → d = c)
    ∧ (noRounding 0 (items c) = true → noRounding 0 (items g) = true →
       noRounding 0 (items d) = true →
       ∃ tc tg td,
         F2Q (totalPrice c) = Some tc ∧ F2Q (totalPrice g) = Some tg
         ∧ F2Q (totalPrice d) = Some td ∧ (td == tc + tg)%Q).
Proof.
  intros Hst%reachable_wf Hu Hs Hg Hc Hdis.
  rewrite (merge_both_eq st r u s g c Hst Hu Hs Hg Hc). cbn [snd].
  eexists. split; [reflexivity|].
  apply findOne_elem in Hg as [Hg _]. apply findByUser_elem in Hc as [Hc _].
  destruct (wf_elem _ _ Hst Hg) as (_ & Hgnd & Hgtot).
  destruct (wf_elem _ _ Hst Hc) as (_ & _ & Hctot).
  rewrite (mergeItems_disjoint _ _ Hgnd Hdis).
  cbn [preSave set_items items totalPrice]. split_and!.
  - done.
  - intros ->. rewrite app_nil_r. rewrite preSave_id by exact Hctot. by destruct c.
  - intros Hnc Hng Hnd.
    destruct (cartTotal_qsum _ Hnc) as (tc & Htc & Hqc).
    destruct (cartTotal_qsum _ Hng) as (tg & Htg & Hqg).
    destruct (cartTotal_qsum _ Hnd) as (td & Htd & Hqd).
    exists tc, tg, td. split_and!; [by rewrite Hctot | by rewrite Hgtot | done |].
    rewrite Hqd, Hqc, Hqg. apply qsum_app.
Qed.

Lemma merge_disjoint_carts_witness :
  ∃ d, (merge (mergeReq bob "s1")
          (handle AddItem (ownerAdd bob "Cap" 4 2) stGuest).1).2
         = respond 200 "Carts merged" d
    ∧ items d = [mkItem "Cap" 4 None 2] ++ items guestDoc.
Proof.
  assert (reachable (handle AddItem (ownerAdd bob "Cap" 4 2) stGuest).1) as Hreach
    by (apply reach_step, reachable_stGuest).
  destruct (merge_disjoint_carts (handle AddItem (ownerAdd bob "Cap" 4 2) stGuest).1
              (mergeReq bob "s1") bob "s1" guestDoc
              (mkCart 1 (Some bob) None [mkItem "Cap" 4 None 2] 8 active)
              Hreach eq_refl eq_refl eq_refl eq_refl)
    as (d & Hres & Hitems & _).
  - intros m Hm Hc. apply list_elem_of_singleton in Hc as ->.
    apply elem_of_cons in Hm as [Hm|Hm]; [discriminate Hm|].
    apply list_elem_of_singleton in Hm. discriminate Hm.
  - exists d. split_and!; assumption.
Defined.



(** ** Invariants of the collection *)

Section Invariants.
Implicit Types (c d x : Cart) (st : Store) (r : Req.t).

(** A property of documents that every write of the routes keeps holds
    of every stored document after any request. *)
Lemma handle_Forall (Q : Cart → Prop) o r st :
  (∀ c l, Q c → Q (preSave (set_items l c))) →
  (∀ c, Q c → Q (preSave (set_status ordered c))) →
  (∀ c u s, Q c → Q (preSave (set_owner u s c))) →
  (∀ u s l, Q (preSave (set_items l (newCart u s st)))) →
  Forall Q (carts st) → Forall Q (carts (handle o r st).1).
Proof.
  intros Hitems Hstatus Howner Hnew Hall.
  assert (∀ u s x, lookupCart u s st = Found x → Q x) as Hlk.
  { intros u s x [Hx _]%lookupCart_elem. rewrite Forall_forall in Hall. auto. }
  assert (∀ (P : Cart → Prop) `{∀ y : Cart, Decision (P y)} x,
            findOne P st = Some x → Q x) as Hfo.
  { intros P ? x [Hx _]%findOne_elem. rewrite Forall_forall in Hall. auto. }
  assert (∀ x d st', Q (preSave x) → save false x st = Some (d, st') →
            Forall Q (carts st')) as Hupd.
  { intros x d st' Hx (_ & -> & ->)%save_Some. cbn. by apply updateOne_Forall. }
  destruct o; cbn [handle].
  - unfold addItem.
    destruct (truthyStr (Req.name r)); [|done].
    destruct (truthyNum (Req.price r)); [|done].
    destruct (lookupCart _ _ st) as [x| |] eqn:Hx; [| |done].
    + destruct (save _ _ _) as [[d st']|] eqn:Hsave; [|done]. cbn.
      eapply Hupd; [|done]. eauto.
    + destruct (save _ _ _) as [[d st']|] eqn:Hsave; [|done]. cbn.
      apply save_Some in Hsave as (_ & -> & ->). cbn.
      apply Forall_app. split; [done|]. apply Forall_singleton, Hnew.
  - by rewrite getCart_same.
  - unfold updateQuantity.
    destruct (lookupCart _ _ st) as [x| |] eqn:Hx; [|done..].
    destruct (list_find _ _) as [[i y]|]; [|done].
    destruct (Req.quantity r); [|done].
    destruct (save _ _ _) as [[d st']|] eqn:Hsave; [|done]. cbn.
    eapply Hupd; [|done]. eauto.
  - unfold removeItem.
    destruct (lookupCart _ _ st) as [x| |] eqn:Hx; [|done..].
    destruct (save _ _ _) as [[d st']|] eqn:Hsave; [|done]. cbn.
    eapply Hupd; [|done]. eauto.
  - unfold clear.
    destruct (lookupCart _ _ st) as [x| |] eqn:Hx; [|done..].
    destruct (save _ _ _) as [[d st']|] eqn:Hsave; [|done]. cbn.
    eapply Hupd; [|done]. eauto.
  - unfold merge.
    destruct (truthyStr (Req.user r)); [|done].
    destruct (truthyStr (Req.sessionId r)); [|done].
    destruct (findByUser _ st) as [x| |] eqn:Hx; [| |done];
      (destruct (findOne (bySession _) st) as [g|] eqn:Hg; [|done]).
    + apply findByUser_Found in Hx as [_ Hx].
      destruct (save _ _ _) as [[d st']|] eqn:Hsave; [|done]. cbn.
      apply deleteOne_Forall. eapply Hupd; [|done]. eauto.
    + destruct (save _ _ _) as [[d st']|] eqn:Hsave; [|done]. cbn.
      eapply Hupd; [|done]. eauto.
  - unfold checkout.
    destruct (lookupCart _ _ st) as [x| |] eqn:Hx; [|done..].
    destruct (save _ _ _) as [[d st']|] eqn:Hsave; [|done]. cbn.
    eapply Hupd; [|done]. eauto.
Qed.

Lemma run_snoc reqs o r st :
  run (reqs ++ [(o, r)]) st = (handle o r (run reqs st)).1.
Proof. unfold run. by rewrite foldl_app. Qed.

Lemma reachable_run reqs st : reachable st → reachable (run reqs st).
Proof.
  intros Hst. induction reqs as [|[o r] reqs IH] using rev_ind; [done|].
  rewrite run_snoc. by apply reach_step.
Qed.
End Invariants.

(** X14.  No stored cart is ever abandoned: whatever requests are served,
    every cart in the collection is active or ordered. *)
Theorem abandoned_is_unreachable st c :
  reachable st → c ∈ carts st → status c = active ∨ status c = ordered.
Proof.
  intros Hst. revert c.
  assert (Forall (λ c, status c = active ∨ status c = ordered) (carts st)) as Hall.
  { induction Hst as [|st o r Hst IH]; [constructor|].
    apply handle_Forall; [by intros ?? | by right | by intros ??? | by left | done]. }
  intros c Hc. rewrite Forall_forall in Hall. auto.
Qed.

Lemma abandoned_is_unreachable_witness :
  status (set_status ordered guestDoc) = active
  ∨ status (set_status ordered guestDoc) = ordered.
Proof.
  apply (abandoned_is_unreachable (handle Checkout (guestKey "s1") stGuest).1).
  - apply reach_step, reachable_stGuest.
  - left.
Defined.

(** X15.  In every collection the routes can produce, every cart has
    lines of pairwise different names, every line has a non-empty name and
    a quantity of at least 1, and no two documents share an id. *)
Theorem stored_carts_are_valid st :
  reachable st →
  NoDup (ids (carts st))
  ∧ ∀ c, c ∈ carts st →
      NoDup (names (items c))
      ∧ ∀ x, x ∈ items c → name x ≠ "" ∧ 1 ≤ quantity x.
Proof.
  intros (Hwf & Hids & _)%reachable_wf. split; [done|].
  intros c Hc. rewrite Forall_forall in Hwf.
  destruct (Hwf c Hc) as (Hv & Hnd & _). split; [done|].
  intros x Hx. apply validate_Forall in Hv as [_ Hv].
  rewrite Forall_forall in Hv. by apply validItem_spec, Hv.
Qed.

Lemma stored_carts_are_valid_witness :
  NoDup (ids (carts stBoth))
  ∧ ∀ c, c ∈ carts stBoth →
      NoDup (names (items c))
      ∧ ∀ x, x ∈ items c → name x ≠ "" ∧ 1 ≤ quantity x.
Proof. exact (stored_carts_are_valid stBoth reachable_stBoth). Defined.

(** X16.  An ordered cart is final: whatever sequence of requests follows,
    the document stays in the collection exactly as it was. *)
Theorem ordered_is_final st c reqs :
  reachable st → c ∈ carts st → status c = ordered →
  c ∈ carts (run reqs st).
Proof.
  intros Hst Hc Hord.
  induction reqs as [|[o r] reqs IH] using rev_ind; [done|].
  rewrite run_snoc. apply inactive_stays; [|done|by rewrite Hord].
  by apply reachable_wf, reachable_run.
Qed.

Lemma ordered_is_final_witness :
  set_status ordered guestDoc
  ∈ carts (run [(AddItem, guestAdd "s1" "Cap" 4 1); (Clear, guestKey "s1");
                (Merge, mergeReq alice "s1")]
             (handle Checkout (guestKey "s1") stGuest).1).
Proof.
  apply (ordered_is_final (handle Checkout (guestKey "s1") stGuest).1).
  - apply reach_step, reachable_stGuest.
  - left.
  - reflexivity.
Defined.

Section Counting.
Context (P : Cart → Prop) `{∀ y : Cart, Decision (P y)}.
Implicit Types (c d x : Cart) (l : list Cart) (st : Store).

Lemma count_update_le d l :
  (P d → ∀ y, y ∈ l → _id y = _id d → P y) →
  (length (filter P (updateOne d l)) ≤ length (filter P l))%nat.
Proof.
  induction l as [|y l IH]; intros Hd; cbn [updateOne]; [done|].
  case_decide as Hy.
  - rewrite !filter_cons. destruct (decide (P d)) as [Hpd|Hpd].
    + rewrite decide_True; [done|]. apply Hd; [done|left|done].
    + case_decide; cbn; lia.
  - rewrite !filter_cons.
    assert (length (filter P (updateOne d l)) ≤ length (filter P l))%nat as Hle.
    { apply IH. intros Hpd z Hz. apply Hd; [done|]. by right. }
    case_decide; cbn; lia.
Qed.

Lemma count_update_none d l :
  Forall (λ y, ¬ P y) l → (length (filter P (updateOne d l)) ≤ 1)%nat.
Proof.
  induction 1 as [|y l Hy Hl IH]; cbn [updateOne]; [cbn; lia|].
  case_decide.
  - rewrite filter_cons, (filter_none P l Hl). case_decide; cbn; lia.
  - by rewrite filter_cons, decide_False.
Qed.

Lemma count_delete_le i l :
  (length (filter P (deleteOne i l)) ≤ length (filter P l))%nat.
Proof.
  induction l as [|y l IH]; cbn [deleteOne]; [done|].
  case_decide; rewrite !filter_cons; case_decide; cbn; lia.
Qed.

Lemma save_count x x0 st d st' :
  wfStore st → x0 ∈ carts st → _id x = _id x0 →
  (P (preSave x) → P x0) →
  save false x st = Some (d, st') →
  (length (filter P (carts st')) ≤ length (filter P (carts st)))%nat.
Proof.
  intros (_ & Hids & _) Hx0 Hid Himp (_ & -> & ->)%save_Some. cbn [carts].
  apply count_update_le. intros Hp y Hy Heq.
  assert (y = x0) as -> by (eapply ids_inj; [done..|]; cbn in Heq; congruence).
  auto.
Qed.
(** Two different members that satisfy [P] make two matches. *)
Lemma filter_two x c l :
  x ∈ l → c ∈ l → x ≠ c → P x → P c → (2 ≤ length (filter P l))%nat.
Proof.
  assert (∀ y l', y ∈ l' → P y → (1 ≤ length (filter P l'))%nat) as Hone.
  { intros y l' Hy Hp.
    assert (y ∈ filter P l') as Hin by by apply list_elem_of_filter.
    destruct (filter P l'); [by apply elem_of_nil in Hin | cbn; lia]. }
  intros (l1 & l2 & ->)%list_elem_of_split Hc Hne Hpx Hpc.
  rewrite filter_app, filter_cons, decide_True, length_app by done. cbn.
  apply elem_of_app in Hc as [Hc|[->|Hc]%elem_of_cons]; [|done|].
  - pose proof (Hone c l1 Hc Hpc). lia.
  - pose proof (Hone c l2 Hc Hpc). lia.
Qed.
End Counting.

Section UserCarts.
Implicit Types (c d x : Cart) (st : Store) (r : Req.t) (u : string).

Lemma active_user_carts st u :
  reachable st → u ≠ "" →
  (length (filter (byUser (Some u)) (carts st)) ≤ 1)%nat.
Proof.
  intros Hst Hu. induction Hst as [|st o r Hst IH]; [cbn; lia|].
  pose proof (reachable_wf _ Hst) as Hwf.
  set (P := byUser (Some u)).
  assert (∀ x l d st', x ∈ carts st →
            save false (set_items l x) st = Some (d, st') →
            (length (filter P (carts st')) ≤ 1)%nat) as Hitems.
  { intros x l d st' Hx Hsave.
    etrans; [|exact IH].
    by refine (save_count P _ x st _ _ Hwf Hx _ _ Hsave). }
  destruct o; cbn [handle].
  - unfold addItem.
    destruct (truthyStr (Req.name r)); [|done].
    destruct (truthyNum (Req.price r)); [|done].
    destruct (lookupCart _ _ st) as [x| |] eqn:Hx; [| |done].
    + apply lookupCart_elem in Hx as [Hx _].
      destruct (save _ _ _) as [[d st']|] eqn:Hsave; [|done]. cbn. eauto.
    + destruct (save _ _ _) as [[d st']|] eqn:Hsave; [|done]. cbn.
      apply save_Some in Hsave as (_ & -> & ->). cbn [carts].
      rewrite filter_app, length_app, filter_cons, filter_nil.
      destruct (decide (P _)) as [[Hpu _]|Hp]; [|cbn; unfold P; lia].
      cbn in Hpu. unfold lookupCart in Hx. rewrite Hpu in Hx.
      rewrite (proj2 (truthyStr_Some (Some u) u)) in Hx by done.
      apply findByUser_NoCart in Hx as [_ Hx].
      apply findOne_None in Hx. fold P. rewrite (filter_none P _ Hx). cbn. lia.
  - by rewrite getCart_same.
  - unfold updateQuantity.
    destruct (lookupCart _ _ st) as [x| |] eqn:Hx; [|done..].
    apply lookupCart_elem in Hx as [Hx _].
    destruct (list_find _ _) as [[i y]|]; [|done].
    destruct (Req.quantity r); [|done].
    destruct (save _ _ _) as [[d st']|] eqn:Hsave; [|done]. cbn. eauto.
  - unfold removeItem.
    destruct (lookupCart _ _ st) as [x| |] eqn:Hx; [|done..].
    apply lookupCart_elem in Hx as [Hx _].
    destruct (save _ _ _) as [[d st']|] eqn:Hsave; [|done]. cbn. eauto.
  - unfold clear.
    destruct (lookupCart _ _ st) as [x| |] eqn:Hx; [|done..].
    apply lookupCart_elem in Hx as [Hx _].
    destruct (save _ _ _) as [[d st']|] eqn:Hsave; [|done]. cbn. eauto.
  - unfold merge.
    destruct (truthyStr (Req.user r)) as [u0|]; [|done].
    destruct (truthyStr (Req.sessionId r)) as [s|]; [|done].
    destruct (findByUser u0 st) as [x| |] eqn:Hx; [| |done];
      (destruct (findOne (bySession _) st) as [g|] eqn:Hg; [|done]);
      apply findOne_elem in Hg as [Hg _].
    + apply findByUser_elem in Hx as [Hx _].
      destruct (save _ _ _) as [[d st']|] eqn:Hsave; [|done]. cbn [fst carts].
      etrans; [apply count_delete_le|]. eauto.
    + apply findByUser_NoCart in Hx as [_ Hx].
      destruct (save _ _ _) as [[d st']|] eqn:Hsave; [|done]. cbn [fst].
      destruct (decide (u0 = u)) as [->|Hne].
      * apply save_Some in Hsave as (_ & -> & ->). cbn [carts].
        apply count_update_none. exact (proj1 (findOne_None _ st) Hx).
      * etrans; [|exact IH].
        refine (save_count P _ g st _ _ Hwf Hg _ _ Hsave); [done|].
        intros [Hpu _]. cbn in Hpu. congruence.
  - unfold checkout.
    destruct (lookupCart _ _ st) as [x| |] eqn:Hx; [|done..].
    apply lookupCart_elem in Hx as [Hx _].
    destruct (save _ _ _) as [[d st']|] eqn:Hsave; [|done]. cbn [fst].
    etrans; [|exact IH].
    refine (save_count P _ x st _ _ Hwf Hx _ _ Hsave); [done|].
    by intros [_ Hact].
Qed.

(** A merge of a cart with itself: the document found under both keys
    is written, then deleted, and the user is left without a cart. *)
Lemma merge_same_document st r u s c :
  reachable st →
  truthyStr (Req.user r) = Some u → truthyStr (Req.sessionId r) = Some s →
  findOne (bySession (Some s)) st = Some c →
  findByUser u st = Found c →
  findByUser u (merge r st).1 = NoCart.
Proof.
  intros Hreach Hu Hs Hg Hc. pose proof (reachable_wf _ Hreach) as Hst.
  rewrite (merge_both_eq st r u s c c Hst Hu Hs Hg Hc). cbn [fst].
  pose proof Hst as (_ & Hids & _).
  apply truthyStr_Some in Hu as [_ Hu].
  pose proof Hc as [Hcast _]%findByUser_Found.
  pose proof Hc as [Hcin Hcu]%findByUser_elem.
  apply findByUser_NoCart. split; [done|].
  apply findOne_None, Forall_forall. cbn [carts]. intros x Hx Hxu.
  assert (_id x ≠ _id c) as Hne.
  { intros Heq. apply (deleteOne_gone (_id c) (updateOne
      (preSave (set_items (mergeItems (items c) (items c)) c)) (carts st))).
    - by rewrite ids_updateOne.
    - unfold ids. apply list_elem_of_fmap. exists x. by split. }
  apply deleteOne_elem, updateOne_elem_inv in Hx as [->|Hx]; [done|].
  pose proof (active_user_carts st u Hreach Hu) as Hle.
  pose proof (filter_two (byUser (Some u)) x c (carts st) Hx Hcin) as Htwo.
  assert (x ≠ c) as Hxc by (intros ->; done).
  specialize (Htwo Hxc Hxu Hcu). lia.
Qed.
End UserCarts.

(** X17.  However the requests are ordered, a user never has two active
    carts: for every non-empty user id at most one stored cart is active
    and owned by that user. *)
Theorem one_active_cart_per_user st u :
  reachable st → u ≠ "" →
  (length (filter (byUser (Some u)) (carts st)) ≤ 1)%nat.
Proof. apply active_user_carts. Qed.

Lemma one_active_cart_per_user_witness :
  (length (filter (byUser (Some alice)) (carts stTwoKeys)) ≤ 1)%nat.
Proof.
  apply (one_active_cart_per_user stTwoKeys alice reachable_stTwoKeys).
  discriminate.
Defined.

(** C2.  A cart carrying both the user id and the session id is, for
    merge, the guest cart and the user cart at once.  Merge then answers
    200 "Carts merged" with that cart, every quantity doubled, and deletes
    the document: the user is left without a cart.  One add with both keys
    on the empty collection produces such a cart. *)
Theorem merge_deletes_two_key_cart :
  (∀ st r u s c,
     reachable st →
     truthyStr (Req.user r) = Some u → truthyStr (Req.sessionId r) = Some s →
     findOne (bySession (Some s)) st = Some c →
     findByUser u st = Found c →
     ∃ d, (merge r st).2 = respond 200 "Carts merged" d
       ∧ _id d = _id c
       ∧ (∀ n l, lineOf n (items c) = Some l →
            lineOf n (items d) = Some (add_quantity (quantity l) l))
       ∧ (_id c ∉ ids (carts (merge r st).1))
       ∧ findByUser u (merge r st).1 = NoCart)
  ∧ reachable stOneDoc
  ∧ (addItem (userAdd alice "s1" "Ink" 3 1) emptyStore).1 = stOneDoc
  ∧ findOne (bySession (Some "s1")) stOneDoc = findOne (byUser (Some alice)) stOneDoc
  ∧ merge (mergeReq alice "s1") stOneDoc =
      (mkStore [] 1,
       respond 200 "Carts merged"
         (mkCart 0 (Some alice) (Some "s1") [mkItem "Ink" 3 None 2] 6 active))
  ∧ getCart (userKey alice) (merge (mergeReq alice "s1") stOneDoc).1 =
      (mkStore [] 1, mkRes 200 true None (Some (View [] 0))).
Proof.
  split_and!; [|apply reach_step, reach_empty|reflexivity..].
  intros st r u s c Hreach Hu Hs Hg Hc.
  pose proof (reachable_wf _ Hreach) as Hst.
  pose proof (merge_same_document st r u s c Hreach Hu Hs Hg Hc) as Hgone.
  revert Hgone. rewrite (merge_both_eq st r u s c c Hst Hu Hs Hg Hc).
  cbn [fst snd]. intros Hgone.
  eexists. split; [reflexivity|]. cbn [preSave set_items _id items carts].
  apply findOne_elem in Hg as [Hcin _].
  destruct (wf_elem _ _ Hst Hcin) as (_ & Hnd & _).
  destruct Hst as (_ & Hids & _).
  split_and!; [done| | |done].
  - intros n l Hl. by rewrite lineOf_mergeItems, Hl.
  - apply deleteOne_gone. by rewrite ids_updateOne.
Qed.

Lemma merge_deletes_two_key_cart_witness :
  ∃ d, (merge (mergeReq alice "s1") stOneDoc).2 = respond 200 "Carts merged" d
    ∧ (0%nat ∉ ids (carts (merge (mergeReq alice "s1") stOneDoc).1))
    ∧ findByUser alice (merge (mergeReq alice "s1") stOneDoc).1 = NoCart.
Proof.
  destruct (proj1 merge_deletes_two_key_cart stOneDoc (mergeReq alice "s1")
              alice "s1"
              (mkCart 0 (Some alice) (Some "s1") [mkItem "Ink" 3 None 1] 3 active)
              ltac:(apply reach_step, reach_empty) eq_refl eq_refl eq_refl eq_refl)
    as (d & Hres & _ & _ & Hgone & Hnone).
  exists d. split_and!; assumption.
Defined.

(** ** Checkout and the amounts an add accepts *)

(** X18.  Checkout changes the status alone: the answer is the cart as it
    was, lines, total and keys included, with status ordered.  When that
    cart was the only active cart its key matches, the key then has no
    cart: a read returns the empty view and a second checkout is answered
    404. *)
Theorem checkout_orders_once st r c :
  reachable st →
  lookupCart (Req.user r) (Req.sessionId r) st = Found c →
  (∀ x, x ∈ carts st → status x = active →
        match truthyStr (Req.user r) with
        | Some _ => user x = Req.user r
        | None => sessionId x = Req.sessionId r
        end → x = c) →
  (checkout r st).2 =
    respond 200 "Checkout complete"
      (mkCart (_id c) (user c) (sessionId c) (items c) (totalPrice c) ordered)
  ∧ data (getCart r (checkout r st).1).2 = Some (View [] 0)
  ∧ code (checkout r (checkout r st).1).2 = NotFound.
Proof.
  intros Hst%reachable_wf Hc Honly.
  pose proof (checkout_twice st r c Hst Hc Honly) as Htwice.
  split_and!; [|
    |done].
  - by rewrite (checkout_found_eq st r c Hst Hc).
  - apply (checkout_NotFound_iff _ r (checkout_wf r st Hst)) in Htwice.
    unfold getCart. cbn [snd data]. by rewrite Htwice.
Qed.

Lemma checkout_orders_once_witness :
  data (getCart (guestKey "s1") (checkout (guestKey "s1") stGuest).1).2
    = Some (View [] 0)
  ∧ code (checkout (guestKey "s1") (checkout (guestKey "s1") stGuest).1).2
    = NotFound.
Proof.
  destruct (checkout_orders_once stGuest (guestKey "s1") guestDoc
              reachable_stGuest eq_refl) as (_ & Hget & Htwice).
  - intros x Hx _ _. apply elem_of_cons in Hx as [->|Hx]; [reflexivity|].
    by apply elem_of_nil in Hx.
  - split; assumption.
Defined.

Section Amounts.
Implicit Types (l : list CartItem) (n : string) (p : float) (q : Z).

End Amounts.



(** ** Which documents come and go *)

Section Documents.
Implicit Types (l : list Cart) (i j : nat).

Lemma ids_deleteOne_back i j l : i ∈ ids (deleteOne j l) → i ∈ ids l.
Proof.
  unfold ids. intros (x & -> & Hx%deleteOne_elem)%list_elem_of_fmap.
  by apply list_elem_of_fmap_2.
Qed.

Lemma ids_deleteOne_keep i j l : i ∈ ids l → i ≠ j → i ∈ ids (deleteOne j l).
Proof.
  unfold ids. intros (x & -> & Hx)%list_elem_of_fmap Hne.
  apply list_elem_of_fmap_2. by apply deleteOne_other.
Qed.
End Documents.

(** X20.  Only an add that finds no cart creates a document, and it takes
    the next free id; only a merge deletes one, and it is the guest cart
    of the session.  Every other request leaves the set of document ids
    as it was. *)
Theorem documents_created_and_deleted o r st i :
  (i ∈ ids (carts st) →
   i ∈ ids (carts (handle o r st).1)
   ∨ (o = Merge ∧ ∃ g, findOne (bySession (Req.sessionId r)) st = Some g ∧ _id g = i))
  ∧ (i ∈ ids (carts (handle o r st).1) →
     i ∈ ids (carts st)
     ∨ (o = AddItem ∧ i = nextId st
        ∧ lookupCart (Req.user r) (Req.sessionId r) st = NoCart)).
Proof.
  assert (∀ x d st', save false x st = Some (d, st') →
            ids (carts st') = ids (carts st)) as Hupd.
  { intros x d st' (_ & -> & ->)%save_Some. apply ids_updateOne. }
  destruct o; cbn [handle].
  - unfold addItem.
    destruct (truthyStr (Req.name r)); [|by split; left].
    destruct (truthyNum (Req.price r)); [|by split; left].
    destruct (lookupCart _ _ st) as [x| |] eqn:Hx; [| |by split; left].
    + destruct (save _ _ _) as [[d st']|] eqn:Hsave; [|by split; left]. cbn.
      rewrite (Hupd _ _ _ Hsave). by split; left.
    + destruct (save _ _ _) as [[d st']|] eqn:Hsave; [|by split; left]. cbn.
      apply save_Some in Hsave as (_ & -> & ->). cbn [carts]. unfold ids.
      rewrite fmap_app. split.
      * intros Hi. left. apply elem_of_app. by left.
      * intros [Hi|Hi%list_elem_of_singleton]%elem_of_app; [by left|].
        right. by rewrite Hi.
  - rewrite getCart_same. by split; left.
  - unfold updateQuantity.
    destruct (lookupCart _ _ st) as [x| |]; [|by split; left..].
    destruct (list_find _ _) as [[k y]|]; [|by split; left].
    destruct (Req.quantity r); [|by split; left].
    destruct (save _ _ _) as [[d st']|] eqn:Hsave; [|by split; left]. cbn.
    rewrite (Hupd _ _ _ Hsave). by split; left.
  - unfold removeItem.
    destruct (lookupCart _ _ st) as [x| |]; [|by split; left..].
    destruct (save _ _ _) as [[d st']|] eqn:Hsave; [|by split; left]. cbn.
    rewrite (Hupd _ _ _ Hsave). by split; left.
  - unfold clear.
    destruct (lookupCart _ _ st) as [x| |]; [|by split; left..].
    destruct (save _ _ _) as [[d st']|] eqn:Hsave; [|by split; left]. cbn.
    rewrite (Hupd _ _ _ Hsave). by split; left.
  - unfold merge.
    destruct (truthyStr (Req.user r)) as [u|]; [|by split; left].
    destruct (truthyStr (Req.sessionId r)) as [s|] eqn:Hs; [|by split; left].
    apply truthyStr_Some in Hs as [-> _].
    destruct (findByUser u st) as [x| |]; [| |by split; left];
      (destruct (findOne (bySession _) st) as [g|] eqn:Hg; [|by split; left]).
    + destruct (save _ _ _) as [[d st']|] eqn:Hsave; [|by split; left].
      cbn [fst carts]. split.
      * intros Hi. destruct (decide (i = _id g)) as [->|Hne].
        -- right. split; [done|]. by exists g.
        -- left. apply ids_deleteOne_keep; [|done]. by rewrite (Hupd _ _ _ Hsave).
      * intros Hi%ids_deleteOne_back. left. by rewrite <- (Hupd _ _ _ Hsave).
    + destruct (save _ _ _) as [[d st']|] eqn:Hsave; [|by split; left]. cbn.
      rewrite (Hupd _ _ _ Hsave). by split; left.
  - unfold checkout.
    destruct (lookupCart _ _ st) as [x| |]; [|by split; left..].
    destruct (save _ _ _) as [[d st']|] eqn:Hsave; [|by split; left]. cbn.
    rewrite (Hupd _ _ _ Hsave). by split; left.
Qed.

Lemma documents_created_and_deleted_witness :
  1%nat ∈ ids (carts (handle Checkout (userAdd alice "s1" "x" 1 1) stBoth).1)
  ∧ 0%nat ∈ ids (carts stBoth).
Proof.
  destruct (documents_created_and_deleted Checkout (userAdd alice "s1" "x" 1 1)
              stBoth 1%nat) as [Hkeep _].
  destruct (documents_created_and_deleted UpdateQuantity (guestKey "s1")
              stBoth 0%nat) as [_ Hback].
  assert (1%nat ∈ ids (carts stBoth)) as Hpre1 by (right; left).
  assert (0%nat ∈ ids (carts (handle UpdateQuantity (guestKey "s1") stBoth).1))
    as Hpre0 by left.
  split.
  - destruct (Hkeep Hpre1) as [Hin|[Hop _]]; [exact Hin | discriminate Hop].
  - destruct (Hback Hpre0) as [Hin|[Hop _]]; [exact Hin | discriminate Hop].
Defined.

(** ** The JWT middleware *)

Section Auth.

Lemma jsSplit_nonempty sep s : jsSplit sep s ≠ [].
Proof. destruct s as [|a s]; cbn; [done|]. by repeat case_match. Qed.

Lemma jsSplit_word w rest :
  noSpace w = true →
  jsSplit space (String.append w (String space rest)) = w :: jsSplit space rest.
Proof.
  induction w as [|a w IH]; cbn [noSpace].
  - done.
  - intros [Ha Hw]%andb_true_iff. apply negb_true_iff in Ha.
    change (String.append (String a w) (String space rest))
      with (String a (String.append w (String space rest))).
    cbn [jsSplit]. by rewrite Ha, (IH Hw).
Qed.

Lemma jsSplit_last w : noSpace w = true → jsSplit space w = [w].
Proof.
  induction w as [|a w IH]; cbn; [done|].
  intros [Ha Hw]%andb_true_iff. apply negb_true_iff in Ha.
  by rewrite Ha, (IH Hw).
Qed.

Lemma append_nonempty w rest :
  truthyStr (Some (String.append w (String space rest)))
  = Some (String.append w (String space rest)).
Proof. by destruct w. Qed.
End Auth.

(** X21.  The middleware hands [jwt.verify] the second space-separated
    field of the Authorization header and nothing else: the first word
    (the scheme) is never looked at, and anything after a further space
    is ignored.  The request goes on with the decoded claims when verify
    accepts that field, and is answered 403 when it does not. *)
Theorem authenticateJWT_second_field {Claims : Type}
    (verify : option string → option Claims) (scheme tok extra : string) :
  noSpace scheme = true → noSpace tok = true →
  let outcome :=
    match verify (Some tok) with
    | Some decoded => Next decoded
    | None => Denied 403 "Invalid or expired token"
    end in
  authenticateJWT verify
    (Some (String.append scheme (String space tok))) = outcome
  ∧ authenticateJWT verify
      (Some (String.append scheme
               (String space (String.append tok (String space extra))))) = outcome.
Proof.
  intros Hscheme Htok outcome. unfold authenticateJWT.
  rewrite !append_nonempty. cbn zeta.
  rewrite !(jsSplit_word scheme _ Hscheme), (jsSplit_word tok _ Htok),
    (jsSplit_last tok Htok).
  done.
Qed.

Lemma authenticateJWT_second_field_witness :
  authenticateJWT (λ t, if decide (t = Some "abc.def.ghi") then Some 7%nat else None)
    (Some "Basic abc.def.ghi") = Next 7%nat
  ∧ authenticateJWT (λ t, if decide (t = Some "abc.def.ghi") then Some 7%nat else None)
      (Some "Basic abc.def.ghi trailing words") = Next 7%nat.
Proof.
  exact (authenticateJWT_second_field
           (λ t, if decide (t = Some "abc.def.ghi") then Some 7%nat else None)
           "Basic" "abc.def.ghi" "trailing words" eq_refl eq_refl).
Defined.

(** X22.  The middleware answers 401 exactly when the Authorization
    header is missing or empty; a header without a space gives verify no
    token at all; and the request goes on only with claims that verify
    returned. *)
Theorem authenticateJWT_denials {Claims : Type}
    (verify : option string → option Claims) (authHeader : option string) :
  (authenticateJWT verify authHeader
     = Denied 401 "Token not found. Unauthorized request"
   ↔ authHeader = None ∨ authHeader = Some "")
  ∧ (∀ w, authHeader = Some w → w ≠ "" → noSpace w = true →
       authenticateJWT verify authHeader =
         match verify None with
         | Some decoded => Next decoded
         | None => Denied 403 "Invalid or expired token"
         end)
  ∧ (∀ decoded, authenticateJWT verify authHeader = Next decoded →
       ∃ h token, authHeader = Some h ∧ h ≠ "" ∧ verify token = Some decoded).
Proof.
  unfold authenticateJWT. split_and!.
  - destruct (truthyStr authHeader) as [h|] eqn:Hh.
    + apply truthyStr_Some in Hh as [-> Hne].
      destruct (verify _); split; try done; intros [?|?]; by simplify_eq.
    + by apply truthyStr_None in Hh.
  - intros w -> Hne Hw.
    rewrite (proj2 (truthyStr_Some (Some w) w)) by done.
    cbn zeta. by rewrite (jsSplit_last w Hw).
  - intros decoded. destruct (truthyStr authHeader) as [h|] eqn:Hh; [|done].
    apply truthyStr_Some in Hh as [-> Hne].
    destruct (verify _) eqn:Hv; [|done]. intros ?; simplify_eq. eauto.
Qed.

Lemma authenticateJWT_denials_witness :
  authenticateJWT (λ t, if decide (t = Some "abc.def.ghi") then Some 7%nat else None)
    (Some "abc.def.ghi") = Denied 403 "Invalid or expired token".
Proof.
  destruct (authenticateJWT_denials
              (λ t, if decide (t = Some "abc.def.ghi") then Some 7%nat else None)
              (Some "abc.def.ghi")) as (_ & Hword & _).
  apply (Hword "abc.def.ghi"); [reflexivity | discriminate | reflexivity].
Defined.
